(** * data_loader.py: a format-dispatch reader and its wandb main routine

    A shallow embedding of [src/data_loader.py].  The script has two
    functions: [load_data], which picks a pandas parser from the extension
    of the path and maps errors to log messages, and [main], which wires the
    command-line arguments to [load_data] and to the wandb artifact API.

    What the script calls but does not define (the file system, the pandas
    parsers and serializer, the wandb client) is gathered in one record,
    [Env]; every effect the script performs is recorded as an [event] in a
    trace, next to the outcome (an exception or a value). *)

From Stdlib Require Import String Ascii List Bool ZArith Lia.
Import ListNotations.
Local Open Scope string_scope.
Local Open Scope Z_scope.

(** ** Strings and [os.path.splitext]

    Python strings are modelled as [string].  The separators and the
    extensions the script compares against are ASCII, and a byte of a
    multi-byte UTF-8 character is never equal to an ASCII one, so slicing a
    path at a dot gives the same pieces on bytes as on code points. *)

Module PyStr.

(** [s.rfind(c)] for a one-character [c]: the highest index of [c] in [s],
    or [-1].  [i] is the index of the head of [s] in the whole string. *)
Fixpoint rfind_from (c : ascii) (s : string) (i : Z) : Z :=
  match s with
  | EmptyString => -1
  | String a s' =>
      let r := rfind_from c s' (i + 1) in
      if 0 <=? r then r else if Ascii.eqb a c then i else -1
  end.

Definition rfind (c : ascii) (s : string) : Z := rfind_from c s 0.

(** [s[i:j]] for [0 <= i <= j]. *)
Definition slice (s : string) (i j : Z) : string :=
  substring (Z.to_nat i) (Z.to_nat (j - i)) s.

(** [s[:i]] and [s[i:]] for [0 <= i]. *)
Definition take (s : string) (i : Z) : string := slice s 0 i.
Definition drop (s : string) (i : Z) : string :=
  slice s i (Z.max i (Z.of_nat (String.length s))).

(** ASCII lower-casing, used to say that two strings differ in letter case
    only; the script itself never changes case. *)
Definition lower_ascii (a : ascii) : ascii :=
  let n := N_of_ascii a in
  if (N.leb 65 n && N.leb n 90)%bool then ascii_of_N (n + 32) else a.

Fixpoint lower (s : string) : string :=
  match s with
  | EmptyString => EmptyString
  | String a s' => String (lower_ascii a) (lower s')
  end.

(** Same string up to the case of its ASCII letters. *)
Definition eq_ignore_case (s t : string) : bool := String.eqb (lower s) (lower t).

(** [c] occurs in [s]. *)
Fixpoint mem (c : ascii) (s : string) : bool :=
  match s with
  | EmptyString => false
  | String a s' => Ascii.eqb a c || mem c s'
  end.

(** [s.endswith(t)]. *)
Definition endswith (s t : string) : bool :=
  let ls := Z.of_nat (String.length s) in
  let lt := Z.of_nat (String.length t) in
  (lt <=? ls) && String.eqb (drop s (ls - lt)) t.

End PyStr.

(** [genericpath._splitext(p, sep, altsep, extsep)] as [posixpath.splitext]
    calls it: [sep = '/'], no [altsep], [extsep = '.'].

    [splitext_scan] is the [while filenameIndex < dotIndex] loop that skips
    the leading dots of the last component; [n] bounds the iterations and is
    [dotIndex - filenameIndex] at the call. *)
Fixpoint splitext_scan (p : string) (dotIndex filenameIndex : Z) (n : nat)
  : string * string :=
  match n with
  | O => (p, "")
  | S n' =>
      if filenameIndex <? dotIndex then
        if negb (String.eqb (PyStr.slice p filenameIndex (filenameIndex + 1)) ".")
        then (PyStr.take p dotIndex, PyStr.drop p dotIndex)
        else splitext_scan p dotIndex (filenameIndex + 1) n'
      else (p, "")
  end.

Definition splitext (p : string) : string * string :=
  let sepIndex := PyStr.rfind "/"%char p in
  let dotIndex := PyStr.rfind "."%char p in
  if sepIndex <? dotIndex then
    let filenameIndex := sepIndex + 1 in
    splitext_scan p dotIndex filenameIndex (Z.to_nat (dotIndex - filenameIndex))
  else (p, "").

(** ** Exceptions

    The exception classes the script names or can meet, with the subclass
    relation an [except] clause tests.  In pandas both [EmptyDataError] and
    [ParserError] derive from [ValueError].  Only instances of Python's
    [Exception] are modelled: they are what a parser raises and what the
    last clause, [except Exception], catches. *)

Inductive exn_class : Type :=
| FileNotFoundError
| ValueError
| EmptyDataError
| ParserError
| AttributeError
| OtherException (name : string).

Definition exn_class_eqb (c d : exn_class) : bool :=
  match c, d with
  | FileNotFoundError, FileNotFoundError => true
  | ValueError, ValueError => true
  | EmptyDataError, EmptyDataError => true
  | ParserError, ParserError => true
  | AttributeError, AttributeError => true
  | OtherException m, OtherException n => String.eqb m n
  | _, _ => false
  end.

(** [issubclass c d]: [c] is [d] or derives from it. *)
Definition issubclass (c d : exn_class) : bool :=
  exn_class_eqb c d ||
  match c, d with
  | EmptyDataError, ValueError => true
  | ParserError, ValueError => true
  | _, _ => false
  end.

(** An exception object: its class and the message it was built with
    ([str(e)] of a one-argument exception). *)
Record exn : Type := Exn { exn_type : exn_class; exn_message : string }.

Definition isinstance (e : exn) (c : exn_class) : bool := issubclass (exn_type e) c.

(** ** Values, events and the world outside the script *)

Inductive level : Type := INFO | ERROR.

(** A [wandb.Artifact]: the constructor's arguments and the files added so
    far, each with its name inside the artifact and its text. *)
Record Artifact : Type := mkArtifact {
  art_name : string;
  art_type : option string;
  art_description : option string;
  art_files : list (string * string)
}.

Definition add_file (a : Artifact) (name content : string) : Artifact :=
  mkArtifact (art_name a) (art_type a) (art_description a)
             (art_files a ++ [(name, content)])%list.

Section Model.

(** A pandas [DataFrame]; the script never looks inside one. *)
Context {DataFrame : Type}.

(** What a parser call evaluates to.  [pd.read_csv], [pd.read_json] and
    [pd.read_excel] with a sheet name give one frame; [pd.read_excel] with
    [sheet_name=None] reads all worksheets and gives a [dict] from sheet
    name to frame. *)
Inductive pyvalue : Type :=
| VFrame (df : DataFrame)
| VSheets (sheets : list (string * DataFrame)).

(** Everything the script calls and does not define. *)
Record Env : Type := mkEnv {
  (** [repr] of a string, as [{...!r}] formats it *)
  repr : string -> string;
  (** [os.path.exists] *)
  path_exists : string -> bool;
  (** [pd.read_excel(path, sheet_name=name)] for a string [name] *)
  read_excel_sheet : string -> string -> exn + DataFrame;
  (** [pd.read_excel(path, sheet_name=None)] *)
  read_excel_all : string -> exn + list (string * DataFrame);
  (** [pd.read_csv(path)] *)
  read_csv : string -> exn + DataFrame;
  (** [pd.read_json(path, orient=o)] *)
  read_json : string -> string -> exn + DataFrame;
  (** [DataFrame.to_csv(f, index=i)]: the text it writes to [f], or the
      exception it raises *)
  to_csv : DataFrame -> bool -> exn + string;
  (** [wandb.init(job_type=j)]: the exception it raises, if any *)
  wandb_init : string -> option exn;
  (** [wandb.Artifact(name, type=t, description=d)]: likewise *)
  wandb_Artifact : string -> option string -> option string -> option exn;
  (** opening [artifact.new_file(name, mode=m)]: likewise *)
  wandb_new_file : string -> string -> option exn;
  (** leaving the [with artifact.new_file(name, ...)] block after [content]
      was written (the file is closed and added to the artifact): likewise *)
  wandb_new_file_exit : string -> string -> option exn;
  (** [wandb.log_artifact(artifact)]: likewise *)
  wandb_log_artifact : Artifact -> option exn
}.

(** One entry per call that leaves the script. *)
Inductive event : Type :=
| EvExists (path : string)
| EvLog (lvl : level) (msg : string)
| EvReadExcel (path : string) (sheet_name : option string)
| EvReadCsv (path : string)
| EvReadJson (path : string) (orient : string)
| EvInit (job_type : string)
| EvArtifact (name : string) (type description : option string)
| EvNewFile (name mode : string)
| EvToCsv (df : DataFrame) (index : bool)
| EvLogArtifact (a : Artifact).

Definition trace : Type := list event.

(** ** The monad of the script: a trace and an exception or a value *)

Definition M (A : Type) : Type := trace * (exn + A).

Definition ret {A} (a : A) : M A := ([], inr a).

Definition raise {A} (e : exn) : M A := ([], inl e).

Definition bind {A B} (m : M A) (k : A -> M B) : M B :=
  match m with
  | (t, inl e) => (t, inl e)
  | (t, inr a) => let '(t', r) := k a in ((t ++ t')%list, r)
  end.

Definition emit (ev : event) : M unit := ([ev], inr tt).

(** A call whose outcome the environment decides. *)
Definition call {A} (ev : event) (r : exn + A) : M A := ([ev], r).

Definition call_ (ev : event) (r : option exn) : M unit :=
  ([ev], match r with Some e => inl e | None => inr tt end).

(** The end of a call already in the trace, which the environment can make
    fail. *)
Definition leave (r : option exn) : M unit :=
  ([], match r with Some e => inl e | None => inr tt end).

(** [try: body except ...: handler]: the handler runs on the exception the
    body raised, after the body's effects. *)
Definition try_except {A} (body : M A) (handler : exn -> M A) : M A :=
  match body with
  | (t, inr a) => (t, inr a)
  | (t, inl e) => let '(t', r) := handler e in ((t ++ t')%list, r)
  end.

Definition events {A} (m : M A) : trace := fst m.
Definition outcome {A} (m : M A) : exn + A := snd m.

End Model.

Arguments pyvalue : clear implicits.
Arguments Env : clear implicits.
Arguments event : clear implicits.
Arguments trace : clear implicits.
Arguments M : clear implicits.

Declare Scope py_scope.
Delimit Scope py_scope with py.
Notation "x <- c ;; k" := (bind c (fun x => k))
  (at level 61, c at next level, right associativity) : py_scope.
Notation "c ;; k" := (bind c (fun _ => k))
  (at level 61, right associativity) : py_scope.

(** ** The script *)

(** The [argparse.Namespace] that [main] receives.  [--file_path] and
    [--artifact_name] are required; the other three default to [None]. *)
Record Args : Type := mkArgs {
  file_path : string;
  sheet_name : option string;
  artifact_name : string;
  artifact_type : option string;
  artifact_description : option string
}.

Section Script.

Context {DataFrame : Type}.
Variable env : Env DataFrame.

Local Open Scope py_scope.

Local Abbreviation M := (M DataFrame).

(** [logger.info(fmt, arg)] and [logger.error(fmt, arg)], with the [%s]
    already substituted. *)
Definition logger_info (msg : string) : M unit := emit (EvLog INFO msg).
Definition logger_error (msg : string) : M unit := emit (EvLog ERROR msg).

Definition os_path_exists (path : string) : M bool :=
  call (EvExists path) (inr (path_exists env path)).

(** [pd.read_excel(path, sheet_name=sheet_name)]: one frame for a sheet
    given by name, the [dict] of all sheets for [None]. *)
Definition pd_read_excel (path : string) (sheet_name : option string)
  : M (pyvalue DataFrame) :=
  call (EvReadExcel path sheet_name)
       match sheet_name with
       | Some name =>
           match read_excel_sheet env path name with
           | inl e => inl e
           | inr df => inr (VFrame df)
           end
       | None =>
           match read_excel_all env path with
           | inl e => inl e
           | inr sheets => inr (VSheets sheets)
           end
       end.

Definition pd_read_csv (path : string) : M (pyvalue DataFrame) :=
  call (EvReadCsv path)
       match read_csv env path with
       | inl e => inl e
       | inr df => inr (VFrame df)
       end.

Definition pd_read_json (path orient : string) : M (pyvalue DataFrame) :=
  call (EvReadJson path orient)
       match read_json env path orient with
       | inl e => inl e
       | inr df => inr (VFrame df)
       end.

(** The three [except] clauses of [load_data], tried in order; each logs
    and re-raises with a bare [raise]. *)
Definition load_data_except (file_path : string) (e : exn) : M (pyvalue DataFrame) :=
  if isinstance e EmptyDataError then
    logger_error ("No data: " ++ file_path ++ " is empty") ;;
    raise e
  else if isinstance e ParserError then
    logger_error ("Parse error: could not parse " ++ file_path) ;;
    raise e
  else
    logger_error ("An error occurred: " ++ exn_message e) ;;
    raise e.

(** The body of the [try] of [load_data]. *)
Definition load_data_try (file_path : string) (sheet_name : option string)
           (file_extension : string) : M (pyvalue DataFrame) :=
  df <- (if String.eqb file_extension ".xlsx" then
           logger_info ("Loading Excel file from " ++ file_path) ;;
           pd_read_excel file_path sheet_name
         else if String.eqb file_extension ".csv" then
           logger_info ("Loading CSV file from " ++ file_path) ;;
           pd_read_csv file_path
         else if String.eqb file_extension ".json" then
           logger_info ("Loading JSON file from " ++ file_path) ;;
           pd_read_json file_path "split"
         else
           logger_error ("Unsupported file format: " ++ file_extension) ;;
           raise (Exn ValueError
                      ("Unsupported file format: " ++ repr env file_extension))) ;;
  logger_info ("Successfully loaded data from " ++ file_path) ;;
  ret df.

Definition load_data (file_path : string) (sheet_name : option string)
  : M (pyvalue DataFrame) :=
  found <- os_path_exists file_path ;;
  if negb found then
    logger_error ("File not found: " ++ file_path) ;;
    raise (Exn FileNotFoundError ("File not found: " ++ repr env file_path))
  else
    let file_extension := snd (splitext file_path) in
    try_except (load_data_try file_path sheet_name file_extension)
               (load_data_except file_path).

(** [df.to_csv(f, index=index)]: the text written to [f], unless the
    serializer raises.  A [dict] has no [to_csv] attribute. *)
Definition df_to_csv (df : pyvalue DataFrame) (index : bool) : M string :=
  match df with
  | VFrame d => call (EvToCsv d index) (to_csv env d index)
  | VSheets _ =>
      raise (Exn AttributeError "'dict' object has no attribute 'to_csv'")
  end.

(** [with artifact.new_file(name, mode=mode) as f: body]: the file is
    opened and the body writes its text.  An exception of the body leaves
    the block as it is, with no file added.  Otherwise the block is left:
    the file is closed and added to the artifact under [name], which can
    raise as well. *)
Definition with_new_file (artifact : Artifact) (name mode : string)
           (body : M string) : M Artifact :=
  call_ (EvNewFile name mode) (wandb_new_file env name mode) ;;
  content <- body ;;
  leave (wandb_new_file_exit env name content) ;;
  ret (add_file artifact name content).

Definition new_Artifact (name : string) (type description : option string)
  : M Artifact :=
  call_ (EvArtifact name type description)
        (wandb_Artifact env name type description) ;;
  ret (mkArtifact name type description []).

Definition main (args : Args) : M unit :=
  call_ (EvInit "data_loader") (wandb_init env "data_loader") ;;
  df <- load_data (file_path args) (sheet_name args) ;;
  artifact <- new_Artifact (artifact_name args) (artifact_type args)
                           (artifact_description args) ;;
  artifact <- with_new_file artifact "raw_data.csv" "w" (df_to_csv df false) ;;
  call_ (EvLogArtifact artifact) (wandb_log_artifact env artifact) ;;
  logger_info "Data loaded and artifact logged to Weights & Biases".

End Script.

(** ** Reading traces *)

Section Observations.

Context {DataFrame : Type}.

(** The steps of [main] that the outside world sees: the run
    initialization, a parser reading a file, the CSV serialization of a
    frame, the logging of an artifact. *)
Inductive action : Type :=
| ActInit
| ActLoad (path : string)
| ActSerialize (df : DataFrame) (index : bool)
| ActLogArtifact (a : Artifact).

Definition action_of (ev : event DataFrame) : option action :=
  match ev with
  | EvInit _ => Some ActInit
  | EvReadExcel p _ => Some (ActLoad p)
  | EvReadCsv p => Some (ActLoad p)
  | EvReadJson p _ => Some (ActLoad p)
  | EvToCsv d i => Some (ActSerialize d i)
  | EvLogArtifact a => Some (ActLogArtifact a)
  | _ => None
  end.

Fixpoint actions (t : trace DataFrame) : list action :=
  match t with
  | [] => []
  | ev :: t' =>
      match action_of ev with
      | Some a => a :: actions t'
      | None => actions t'
      end
  end.

Definition is_parse (ev : event DataFrame) : bool :=
  match ev with
  | EvReadExcel _ _ | EvReadCsv _ | EvReadJson _ _ => true
  | _ => false
  end.

Definition is_exists (ev : event DataFrame) : bool :=
  match ev with EvExists _ => true | _ => false end.

Definition is_log_artifact (ev : event DataFrame) : bool :=
  match ev with EvLogArtifact _ => true | _ => false end.

Definition count (f : event DataFrame -> bool) (t : trace DataFrame) : nat :=
  List.length (filter f t).

(** The artifacts passed to [wandb.log_artifact], in order. *)
Fixpoint logged_artifacts (t : trace DataFrame) : list Artifact :=
  match t with
  | [] => []
  | EvLogArtifact a :: t' => a :: logged_artifacts t'
  | _ :: t' => logged_artifacts t'
  end.

(** The names of the files opened inside an artifact, in order. *)
Fixpoint new_file_names (t : trace DataFrame) : list string :=
  match t with
  | [] => []
  | EvNewFile name _ :: t' => name :: new_file_names t'
  | _ :: t' => new_file_names t'
  end.

End Observations.

Arguments action : clear implicits.

(** The formats [load_data] supports, and the one an extension selects. *)
Inductive format : Type := Excel | Csv | Json.

Definition format_of_extension (ext : string) : option format :=
  if String.eqb ext ".xlsx" then Some Excel
  else if String.eqb ext ".csv" then Some Csv
  else if String.eqb ext ".json" then Some Json
  else None.

Definition supported : list string := [".xlsx"; ".csv"; ".json"].

(** ** Names for the pieces of the script the properties speak of *)

Section Pieces.

Context {DataFrame : Type}.
Variable env : Env DataFrame.

Local Open Scope py_scope.

(** The parser call [load_data] makes for a format. *)
Definition read_as (f : format) (path : string) (sheet_name : option string)
  : M DataFrame (pyvalue DataFrame) :=
  match f with
  | Excel => pd_read_excel env path sheet_name
  | Csv => pd_read_csv env path
  | Json => pd_read_json env path "split"
  end.

Definition format_name (f : format) : string :=
  match f with Excel => "Excel" | Csv => "CSV" | Json => "JSON" end.

(** The message the [except] clause that catches [e] logs. *)
Definition except_message (path : string) (e : exn) : string :=
  if isinstance e EmptyDataError then "No data: " ++ path ++ " is empty"
  else if isinstance e ParserError then "Parse error: could not parse " ++ path
  else "An error occurred: " ++ exn_message e.

(** The statements of [main] that follow the load. *)
Definition after_load (args : Args) (df : pyvalue DataFrame) : M DataFrame unit :=
  artifact <- new_Artifact env (artifact_name args) (artifact_type args)
                           (artifact_description args) ;;
  artifact <- with_new_file env artifact "raw_data.csv" "w" (df_to_csv env df false) ;;
  call_ (EvLogArtifact artifact) (wandb_log_artifact env artifact) ;;
  logger_info "Data loaded and artifact logged to Weights & Biases".

(** The artifact [main] logs when [content] is the text that was
    serialized. *)
Definition artifact_of (args : Args) (content : string) : Artifact :=
  mkArtifact (artifact_name args) (artifact_type args) (artifact_description args)
             [("raw_data.csv", content)].

End Pieces.

(** ** A small world to run the script in

    Frames are rows of cells; the disk holds a CSV file, a workbook of two
    sheets, a JSON file, an empty CSV file, a text file, and three files
    whose names test the extension rule. *)
Module Demo.

Definition frame : Type := list (list string).

Definition people : frame := [["name"; "age"]; ["ada"; "36"]; ["alan"; "41"]].
Definition towns : frame := [["town"]; ["bath"]].

Definition join_row (r : list string) : string := String.concat "," r.

Definition write_csv (f : frame) (index : bool) : string :=
  String.concat "" (map (fun r => join_row r ++ String (ascii_of_nat 10) "") f).

Definition disk : list string :=
  ["data.csv"; "book.xlsx"; "table.json"; "empty.csv"; "notes.txt";
   ".csv"; "data.CSV"; "data.Json"].

Definition on_disk (p : string) : bool := existsb (String.eqb p) disk.

Definition quote (s : string) : string := "'" ++ s ++ "'".

Definition env : Env frame := {|
  repr := quote;
  path_exists := on_disk;
  read_excel_sheet := fun p name =>
    if String.eqb name "people" then inr people
    else if String.eqb name "towns" then inr towns
    else inl (Exn ValueError ("Worksheet named " ++ quote name ++ " not found"));
  read_excel_all := fun p => inr [("people", people); ("towns", towns)];
  read_csv := fun p =>
    if String.eqb p "empty.csv"
    then inl (Exn EmptyDataError "No columns to parse from file")
    else inr people;
  read_json := fun p orient => inr towns;
  to_csv := fun f index => inr (write_csv f index);
  wandb_init := fun _ => None;
  wandb_Artifact := fun _ _ _ => None;
  wandb_new_file := fun _ _ => None;
  wandb_new_file_exit := fun _ _ => None;
  wandb_log_artifact := fun _ => None
|}.

Definition args (path : string) (sheet : option string) : Args :=
  mkArgs path sheet "raw" (Some "dataset") None.

End Demo.

(** ** More ways to read a trace *)

Section CallKinds.

Context {DataFrame : Type}.

Definition is_init (ev : event DataFrame) : bool :=
  match ev with EvInit _ => true | _ => false end.

Definition is_artifact (ev : event DataFrame) : bool :=
  match ev with EvArtifact _ _ _ => true | _ => false end.

Definition is_new_file (ev : event DataFrame) : bool :=
  match ev with EvNewFile _ _ => true | _ => false end.

Definition is_to_csv (ev : event DataFrame) : bool :=
  match ev with EvToCsv _ _ => true | _ => false end.

Definition is_error_log (ev : event DataFrame) : bool :=
  match ev with EvLog ERROR _ => true | _ => false end.

(** The calls [load_data] can make: the existence test, the logger, the
    three parsers. *)
Definition is_loader_event (ev : event DataFrame) : bool :=
  match ev with
  | EvExists _ | EvLog _ _ | EvReadExcel _ _ | EvReadCsv _ | EvReadJson _ _ => true
  | _ => false
  end.

End CallKinds.

(** The small world with a wandb client that can fail: [init] and [log] are
    what [wandb.init] and [wandb.log_artifact] raise, if anything. *)
Module DemoFaults.

Definition comm_error : exn :=
  Exn (OtherException "CommError") "network is unreachable".

Definition with_wandb (init log : option exn) : Env Demo.frame := {|
  repr := repr Demo.env;
  path_exists := path_exists Demo.env;
  read_excel_sheet := read_excel_sheet Demo.env;
  read_excel_all := read_excel_all Demo.env;
  read_csv := read_csv Demo.env;
  read_json := read_json Demo.env;
  to_csv := to_csv Demo.env;
  wandb_init := fun _ => init;
  wandb_Artifact := wandb_Artifact Demo.env;
  wandb_new_file := wandb_new_file Demo.env;
  wandb_new_file_exit := wandb_new_file_exit Demo.env;
  wandb_log_artifact := fun _ => log
|}.

(** The small world with another set of files on disk. *)
Definition with_disk (files : list string) : Env Demo.frame := {|
  repr := repr Demo.env;
  path_exists := fun p => existsb (String.eqb p) files;
  read_excel_sheet := read_excel_sheet Demo.env;
  read_excel_all := read_excel_all Demo.env;
  read_csv := read_csv Demo.env;
  read_json := read_json Demo.env;
  to_csv := to_csv Demo.env;
  wandb_init := wandb_init Demo.env;
  wandb_Artifact := wandb_Artifact Demo.env;
  wandb_new_file := wandb_new_file Demo.env;
  wandb_new_file_exit := wandb_new_file_exit Demo.env;
  wandb_log_artifact := wandb_log_artifact Demo.env
|}.

(** The small world with a serializer and a [new_file] block that can
    fail: [ser] is what [to_csv] raises and [exit] what leaving the block
    raises, if anything. *)
Definition with_file_faults (ser exit : option exn) : Env Demo.frame := {|
  repr := repr Demo.env;
  path_exists := path_exists Demo.env;
  read_excel_sheet := read_excel_sheet Demo.env;
  read_excel_all := read_excel_all Demo.env;
  read_csv := read_csv Demo.env;
  read_json := read_json Demo.env;
  to_csv := fun f index =>
    match ser with Some e => inl e | None => to_csv Demo.env f index end;
  wandb_init := wandb_init Demo.env;
  wandb_Artifact := wandb_Artifact Demo.env;
  wandb_new_file := wandb_new_file Demo.env;
  wandb_new_file_exit := fun _ _ => exit;
  wandb_log_artifact := wandb_log_artifact Demo.env
|}.

Definition disk_full : exn :=
  Exn (OtherException "OSError") "[Errno 28] No space left on device".

End DemoFaults.

(** A world whose frames have row labels.  A frame is what
    [pd.read_json(path, orient='split')] builds from the three fields of such
    a file, [index], [columns] and [data]; cells are plain words.  The disk
    holds two JSON files in that layout: one with index [r1], [r2], columns
    [name], [town] and rows [ada], [bath] and [alan], [york]; the other the
    same but for its index, [k1], [k2]. *)
Module DemoIndex.

Record frame : Type := mkFrame {
  index : list string;
  columns : list string;
  data : list (list string)
}.

Definition nl : string := String (ascii_of_nat 10) "".

Definition line (cells : list string) : string := String.concat "," cells ++ nl.

(** [to_csv] on such a frame, as pandas writes it: a line of column labels,
    then a line per row.  With [index=True] every line starts with the row
    label, the first one with an empty cell; with [index=False] the labels
    are left out. *)
Definition write_csv (f : frame) (with_index : bool) : string :=
  line (if with_index then "" :: columns f else columns f)
  ++ String.concat ""
       (map (fun '(label, row) => line (if with_index then label :: row else row))
            (combine (index f) (data f))).

Definition labelled : frame :=
  mkFrame ["r1"; "r2"] ["name"; "town"] [["ada"; "bath"]; ["alan"; "york"]].

Definition relabelled : frame :=
  mkFrame ["k1"; "k2"] ["name"; "town"] [["ada"; "bath"]; ["alan"; "york"]].

Definition no_such_file (p : string) : exn :=
  Exn FileNotFoundError ("[Errno 2] No such file or directory: " ++ Demo.quote p).

Definition env : Env frame := {|
  repr := Demo.quote;
  path_exists := fun p => String.eqb p "labelled.json" || String.eqb p "relabelled.json";
  read_excel_sheet := fun p _ => inl (no_such_file p);
  read_excel_all := fun p => inl (no_such_file p);
  read_csv := fun p => inl (no_such_file p);
  read_json := fun p orient =>
    if String.eqb p "labelled.json" then inr labelled
    else if String.eqb p "relabelled.json" then inr relabelled
    else inl (no_such_file p);
  to_csv := fun f with_index => inr (write_csv f with_index);
  wandb_init := fun _ => None;
  wandb_Artifact := fun _ _ _ => None;
  wandb_new_file := fun _ _ => None;
  wandb_new_file_exit := fun _ _ => None;
  wandb_log_artifact := fun _ => None
|}.

End DemoIndex.

(** * Properties *)

(** ** [splitext] on examples *)

Example splitext_plain : splitext "data/raw/table.csv" = ("data/raw/table", ".csv").
Proof. reflexivity. Qed.

Example splitext_two_dots : splitext "archive.tar.json" = ("archive.tar", ".json").
Proof. reflexivity. Qed.

Example splitext_dotfile : splitext "conf.d/.bashrc" = ("conf.d/.bashrc", "").
Proof. reflexivity. Qed.

Example splitext_dot_in_directory : splitext "v1.2/readme" = ("v1.2/readme", "").
Proof. reflexivity. Qed.

Example splitext_upper : splitext "data.CSV" = ("data", ".CSV").
Proof. reflexivity. Qed.

(** *** [splitext] on ordinary file names *)

Module SplitextFacts.

Import PyStr.

Lemma rfind_from_range c s i :
  rfind_from c s i = -1 \/ (i <= rfind_from c s i < i + Z.of_nat (String.length s)).
Proof.
  revert i. induction s as [|a s IH]; intros i; simpl rfind_from.
  - left; reflexivity.
  - destruct (IH (i + 1)) as [H|H].
    + rewrite H. simpl. destruct (Ascii.eqb a c); [right|left; reflexivity].
      cbn [String.length]. lia.
    + destruct (Z.leb_spec 0 (rfind_from c s (i + 1))).
      * right. cbn [String.length]. lia.
      * destruct (Ascii.eqb a c); [right|left; reflexivity].
        cbn [String.length]. lia.
Qed.

Lemma rfind_from_absent c s i :
  mem c s = false -> rfind_from c s i = -1.
Proof.
  revert i. induction s as [|a s IH]; intros i H; simpl in *; [reflexivity|].
  apply orb_false_iff in H. destruct H as [Ha Hs].
  rewrite (IH _ Hs), Ha. reflexivity.
Qed.

Lemma rfind_from_app_absent c s t i :
  mem c t = false -> rfind_from c (s ++ t) i = rfind_from c s i.
Proof.
  revert i. induction s as [|a s IH]; intros i H; simpl.
  - apply rfind_from_absent; assumption.
  - rewrite (IH _ H). reflexivity.
Qed.

Lemma rfind_from_last c s t i :
  0 <= i -> mem c t = false ->
  rfind_from c (s ++ String c t) i = i + Z.of_nat (String.length s).
Proof.
  revert i. induction s as [|a s IH]; intros i Hi H; simpl.
  - rewrite (rfind_from_absent _ _ _ H). simpl. rewrite Ascii.eqb_refl. lia.
  - rewrite (IH (i + 1)) by (assumption || lia).
    destruct (Z.leb_spec 0 (i + 1 + Z.of_nat (String.length s))); lia.
Qed.

Lemma substring_app_prefix s t :
  substring 0 (String.length s) (s ++ t) = s.
Proof.
  induction s as [|a s IH]; simpl.
  - destruct t; reflexivity.
  - rewrite IH. reflexivity.
Qed.

Lemma substring_app_suffix s t :
  substring (String.length s) (String.length t) (s ++ t) = t.
Proof.
  induction s as [|a s IH]; simpl.
  - induction t as [|b t IHt]; simpl; [reflexivity|]. rewrite IHt. reflexivity.
  - exact IH.
Qed.

Lemma substring_one s a t :
  substring (String.length s) 1 (s ++ String a t) = String a "".
Proof.
  induction s as [|b s IH]; simpl.
  - destruct t; reflexivity.
  - exact IH.
Qed.

Lemma append_assoc s t u : (s ++ t) ++ u = s ++ (t ++ u).
Proof. induction s as [|a s IH]; simpl; [reflexivity|]. rewrite IH. reflexivity. Qed.

Lemma length_append s t :
  String.length (s ++ t) = (String.length s + String.length t)%nat.
Proof. induction s as [|a s IH]; simpl; [reflexivity|]. rewrite IH. reflexivity. Qed.

Section Ordinary.

Variables (stem rest : string) (c : ascii).
Hypothesis c_not_dot : c <> "."%char.
Hypothesis c_not_sep : c <> "/"%char.
Hypothesis rest_no_dot : mem "." rest = false.
Hypothesis rest_no_sep : mem "/" rest = false.

Local Abbreviation name := (stem ++ String c "").
Local Abbreviation ext := (String "."%char rest).
Local Abbreviation L := (Z.of_nat (String.length stem)).

Lemma length_name : Z.of_nat (String.length name) = L + 1.
Proof. rewrite length_append. simpl. lia. Qed.

Lemma dot_index : rfind "." (name ++ ext) = L + 1.
Proof.
  unfold rfind. rewrite rfind_from_last by (lia || assumption).
  rewrite length_name. lia.
Qed.

Lemma sep_index : -1 <= rfind "/" (name ++ ext) < L.
Proof.
  unfold rfind.
  rewrite rfind_from_app_absent
    by (simpl; rewrite rest_no_sep; reflexivity).
  rewrite rfind_from_app_absent.
  - destruct (rfind_from_range "/" stem 0) as [H|H]; lia.
  - simpl. destruct (Ascii.eqb_spec c "/"); [contradiction|reflexivity].
Qed.

Lemma take_name : take (name ++ ext) (L + 1) = name.
Proof.
  pose proof length_name as Hn.
  unfold take, slice.
  replace (Z.to_nat (L + 1 - 0)) with (String.length name) by lia.
  apply substring_app_prefix.
Qed.

Lemma drop_name : drop (name ++ ext) (L + 1) = ext.
Proof.
  pose proof length_name as Hn.
  pose proof (length_append name ext) as Hl.
  unfold drop, slice.
  replace (Z.to_nat (L + 1)) with (String.length name) by lia.
  replace (Z.to_nat (_ - _)) with (String.length ext) by lia.
  apply substring_app_suffix.
Qed.

Lemma slice_last : slice (name ++ ext) L (L + 1) = String c "".
Proof.
  unfold slice.
  replace (Z.to_nat (_ + 1 - _)) with 1%nat by lia.
  rewrite Nat2Z.id, append_assoc. apply substring_one.
Qed.

Lemma scan_ordinary n filenameIndex :
  filenameIndex <= L ->
  Z.of_nat n = L + 1 - filenameIndex ->
  splitext_scan (name ++ ext) (L + 1) filenameIndex n = (name, ext).
Proof.
  revert filenameIndex. induction n as [|n IH]; intros fi Hle Hn; [lia|].
  cbn [splitext_scan].
  destruct (Z.ltb_spec fi (L + 1)); [|lia].
  destruct (String.eqb_spec (slice (name ++ ext) fi (fi + 1)) ".") as [Heq|Hne].
  - cbn [negb]. apply IH; [|lia].
    assert (fi <> L); [|lia].
    intros ->. rewrite slice_last in Heq. injection Heq as Heq. contradiction.
  - cbn [negb]. rewrite take_name, drop_name. reflexivity.
Qed.

(** A name that ends in a dot-free extension right after a character that
    is neither a dot nor a separator splits at that last dot. *)
Lemma splitext_ordinary :
  splitext (stem ++ String c (String "." rest)) = (stem ++ String c "", String "." rest).
Proof.
  change (stem ++ String c (String "." rest)) with (stem ++ (String c "" ++ ext)).
  rewrite <- append_assoc.
  unfold splitext. cbv zeta. rewrite dot_index.
  pose proof sep_index.
  destruct (Z.ltb_spec (rfind "/" (name ++ ext)) (L + 1)); [|lia].
  apply scan_ordinary; lia.
Qed.

End Ordinary.

End SplitextFacts.

(** ** The script on examples *)

Example demo_load_csv :
  outcome (load_data Demo.env "data.csv" None) = inr (VFrame Demo.people).
Proof. reflexivity. Qed.

Example demo_load_sheet :
  outcome (load_data Demo.env "book.xlsx" (Some "towns")) = inr (VFrame Demo.towns).
Proof. reflexivity. Qed.

Example demo_load_empty_csv :
  load_data Demo.env "empty.csv" None =
  ([EvExists "empty.csv";
    EvLog INFO "Loading CSV file from empty.csv";
    EvReadCsv "empty.csv";
    EvLog ERROR "No data: empty.csv is empty"],
   inl (Exn EmptyDataError "No columns to parse from file")).
Proof. reflexivity. Qed.

Example demo_main_csv :
  main Demo.env (Demo.args "data.csv" None) =
  ([EvInit "data_loader";
    EvExists "data.csv";
    EvLog INFO "Loading CSV file from data.csv";
    EvReadCsv "data.csv";
    EvLog INFO "Successfully loaded data from data.csv";
    EvArtifact "raw" (Some "dataset") None;
    EvNewFile "raw_data.csv" "w";
    EvToCsv Demo.people false;
    EvLogArtifact (mkArtifact "raw" (Some "dataset") None
                     [("raw_data.csv", Demo.write_csv Demo.people false)]);
    EvLog INFO "Data loaded and artifact logged to Weights & Biases"],
   inr tt).
Proof. reflexivity. Qed.

(** ** How [load_data] runs *)

Section LoadData.

Context {DataFrame : Type}.
Variable env : Env DataFrame.

Lemma load_data_except_eq path e :
  @load_data_except DataFrame path e = ([EvLog ERROR (except_message path e)], inl e).
Proof.
  unfold load_data_except, except_message.
  destruct (isinstance e EmptyDataError); [reflexivity|].
  destruct (isinstance e ParserError); reflexivity.
Qed.

Lemma events_read_as f path sheet :
  exists ev, events (read_as env f path sheet) = [ev] /\ is_parse ev = true
             /\ action_of ev = Some (ActLoad path).
Proof. destruct f; simpl; eexists; repeat split. Qed.

Lemma load_data_missing_eq path sheet :
  path_exists env path = false ->
  load_data env path sheet =
  ([EvExists path; EvLog ERROR ("File not found: " ++ path)],
   inl (Exn FileNotFoundError ("File not found: " ++ repr env path))).
Proof.
  intros H. unfold load_data, os_path_exists, call, bind. rewrite H. reflexivity.
Qed.

Lemma load_data_unsupported_eq path sheet :
  path_exists env path = true ->
  format_of_extension (snd (splitext path)) = None ->
  let ext := snd (splitext path) in
  let e := Exn ValueError ("Unsupported file format: " ++ repr env ext) in
  load_data env path sheet =
  ([EvExists path;
    EvLog ERROR ("Unsupported file format: " ++ ext);
    EvLog ERROR (except_message path e)],
   inl e).
Proof.
  intros H Hf. unfold load_data, os_path_exists, call, bind. rewrite H. simpl negb.
  cbv iota. unfold load_data_try. unfold format_of_extension in Hf.
  destruct (String.eqb (snd (splitext path)) ".xlsx"); [discriminate|].
  destruct (String.eqb (snd (splitext path)) ".csv"); [discriminate|].
  destruct (String.eqb (snd (splitext path)) ".json"); [discriminate|].
  reflexivity.
Qed.

Lemma load_data_supported_eq path sheet f :
  path_exists env path = true ->
  format_of_extension (snd (splitext path)) = Some f ->
  load_data env path sheet =
  (EvExists path
     :: EvLog INFO ("Loading " ++ format_name f ++ " file from " ++ path)
     :: events (read_as env f path sheet)
     ++ match outcome (read_as env f path sheet) with
        | inr _ => [EvLog INFO ("Successfully loaded data from " ++ path)]
        | inl e => [EvLog ERROR (except_message path e)]
        end,
   outcome (read_as env f path sheet))%list.
Proof.
  intros H Hf. unfold load_data, os_path_exists, call, bind. rewrite H. simpl negb.
  cbv iota. unfold load_data_try. unfold format_of_extension in Hf.
  destruct (String.eqb (snd (splitext path)) ".xlsx").
  { injection Hf as <-. simpl read_as. unfold pd_read_excel, call.
    destruct sheet as [name|].
    - destruct (read_excel_sheet env path name) as [e|df]; simpl;
        rewrite ?load_data_except_eq; reflexivity.
    - destruct (read_excel_all env path) as [e|sheets]; simpl;
        rewrite ?load_data_except_eq; reflexivity. }
  destruct (String.eqb (snd (splitext path)) ".csv").
  { injection Hf as <-. simpl read_as. unfold pd_read_csv, call.
    destruct (read_csv env path) as [e|df]; simpl;
      rewrite ?load_data_except_eq; reflexivity. }
  destruct (String.eqb (snd (splitext path)) ".json"); [|discriminate].
  injection Hf as <-. simpl read_as. unfold pd_read_json, call.
  destruct (read_json env path "split") as [e|df]; simpl;
    rewrite ?load_data_except_eq; reflexivity.
Qed.

(** The three ways [load_data] can run, by what is on disk and by the
    extension. *)
Lemma load_cases path :
  path_exists env path = false \/
  (path_exists env path = true /\
   format_of_extension (snd (splitext path)) = None) \/
  (exists f, path_exists env path = true /\
             format_of_extension (snd (splitext path)) = Some f).
Proof.
  destruct (path_exists env path); [right|left; reflexivity].
  destruct (format_of_extension (snd (splitext path))) as [f|];
    [right; exists f|left]; split; reflexivity.
Qed.

(** When [load_data] returns, a parser was chosen and the value is the
    parser's. *)
Lemma load_data_ok_inv path sheet v :
  outcome (load_data env path sheet) = inr v ->
  exists f,
    path_exists env path = true /\
    format_of_extension (snd (splitext path)) = Some f /\
    outcome (read_as env f path sheet) = inr v.
Proof.
  destruct (load_cases path) as [H|[[H Hf]|(f & H & Hf)]].
  - rewrite (load_data_missing_eq path sheet H). discriminate.
  - rewrite (load_data_unsupported_eq path sheet H Hf). discriminate.
  - rewrite (load_data_supported_eq path sheet f H Hf).
    intros Hv. exists f. repeat split; assumption.
Qed.

Lemma format_of_extension_None ext :
  format_of_extension ext = None <->
  ext <> ".xlsx" /\ ext <> ".csv" /\ ext <> ".json".
Proof.
  unfold format_of_extension.
  destruct (String.eqb_spec ext ".xlsx"); [split; [discriminate|tauto]|].
  destruct (String.eqb_spec ext ".csv"); [split; [discriminate|tauto]|].
  destruct (String.eqb_spec ext ".json"); [split; [discriminate|tauto]|].
  tauto.
Qed.

Lemma format_of_extension_Some ext f :
  format_of_extension ext = Some f <->
  match f with Excel => ext = ".xlsx" | Csv => ext = ".csv" | Json => ext = ".json" end.
Proof.
  unfold format_of_extension.
  destruct (String.eqb_spec ext ".xlsx") as [->|].
  { destruct f; split; congruence. }
  destruct (String.eqb_spec ext ".csv") as [->|].
  { destruct f; split; congruence. }
  destruct (String.eqb_spec ext ".json") as [->|].
  { destruct f; split; congruence. }
  destruct f; split; congruence.
Qed.

End LoadData.

(** ** How [main] runs *)

Section Main.

Context {DataFrame : Type}.
Variable env : Env DataFrame.

Local Open Scope py_scope.

Lemma main_eq args :
  main env args =
  match wandb_init env "data_loader" with
  | Some e => ([EvInit "data_loader"], inl e)
  | None =>
      let m := load_data env (file_path args) (sheet_name args) in
      match outcome m with
      | inl e => (EvInit "data_loader" :: events m, inl e)
      | inr v =>
          (EvInit "data_loader" :: events m ++ events (after_load env args v),
           outcome (after_load env args v))%list
      end
  end.
Proof.
  change (main env args)
    with (call_ (EvInit "data_loader") (wandb_init env "data_loader") ;;
          df <- load_data env (file_path args) (sheet_name args) ;;
          after_load env args df).
  destruct (wandb_init env "data_loader") as [e|]; [reflexivity|].
  destruct (load_data env (file_path args) (sheet_name args)) as [t [e|v]];
    [reflexivity|].
  cbn [call_ bind events outcome fst snd].
  destruct (after_load env args v) as [t' r]. reflexivity.
Qed.

(** The seven ways the statements after the load can run. *)
Lemma after_load_eq args v :
  after_load env args v =
  let ev_artifact :=
    EvArtifact (artifact_name args) (artifact_type args) (artifact_description args) in
  let ev_file := EvNewFile "raw_data.csv" "w" in
  match wandb_Artifact env (artifact_name args) (artifact_type args)
                       (artifact_description args) with
  | Some e => ([ev_artifact], inl e)
  | None =>
      match wandb_new_file env "raw_data.csv" "w" with
      | Some e => ([ev_artifact; ev_file], inl e)
      | None =>
          match v with
          | VSheets _ =>
              ([ev_artifact; ev_file],
               inl (Exn AttributeError "'dict' object has no attribute 'to_csv'"))
          | VFrame df =>
              match to_csv env df false with
              | inl e => ([ev_artifact; ev_file; EvToCsv df false], inl e)
              | inr content =>
                  match wandb_new_file_exit env "raw_data.csv" content with
                  | Some e => ([ev_artifact; ev_file; EvToCsv df false], inl e)
                  | None =>
                      match wandb_log_artifact env (artifact_of args content) with
                      | Some e =>
                          ([ev_artifact; ev_file; EvToCsv df false;
                            EvLogArtifact (artifact_of args content)], inl e)
                      | None =>
                          ([ev_artifact; ev_file; EvToCsv df false;
                            EvLogArtifact (artifact_of args content);
                            EvLog INFO
                              "Data loaded and artifact logged to Weights & Biases"],
                           inr tt)
                      end
                  end
              end
          end
      end
  end.
Proof.
  unfold after_load, new_Artifact, with_new_file, call_, leave, artifact_of. cbv zeta.
  destruct (wandb_Artifact env _ _ _); [reflexivity|].
  destruct (wandb_new_file env _ _); [destruct v; reflexivity|].
  destruct v as [df|sheets]; [|reflexivity]. cbn.
  destruct (to_csv env df false) as [e|content]; [reflexivity|]. cbn.
  destruct (wandb_new_file_exit env _ _); [reflexivity|]. cbn.
  destruct (wandb_log_artifact env _); reflexivity.
Qed.

Lemma after_load_ok args v :
  outcome (after_load env args v) = inr tt ->
  exists df content,
    v = VFrame df /\
    to_csv env df false = inr content /\
    events (after_load env args v) =
    [EvArtifact (artifact_name args) (artifact_type args) (artifact_description args);
     EvNewFile "raw_data.csv" "w";
     EvToCsv df false;
     EvLogArtifact (artifact_of args content);
     EvLog INFO "Data loaded and artifact logged to Weights & Biases"].
Proof.
  rewrite after_load_eq. cbv zeta.
  destruct (wandb_Artifact env _ _ _); [discriminate|].
  destruct (wandb_new_file env _ _); [discriminate|].
  destruct v as [df|sheets]; [|discriminate].
  destruct (to_csv env df false) as [e|content] eqn:Hc; [discriminate|].
  destruct (wandb_new_file_exit env _ _); [discriminate|].
  destruct (wandb_log_artifact env _); [discriminate|].
  intros _. exists df, content. repeat split. exact Hc.
Qed.

Lemma after_load_new_files args v :
  new_file_names (events (after_load env args v)) = [] \/
  new_file_names (events (after_load env args v)) = ["raw_data.csv"].
Proof.
  rewrite after_load_eq. cbv zeta.
  destruct (wandb_Artifact env _ _ _); [left; reflexivity|].
  destruct (wandb_new_file env _ _); [right; reflexivity|].
  destruct v as [df|sheets]; [|right; reflexivity].
  destruct (to_csv env df false) as [e|content]; [right; reflexivity|].
  destruct (wandb_new_file_exit env _ _); [right; reflexivity|].
  destruct (wandb_log_artifact env _); right; reflexivity.
Qed.

Lemma new_file_names_app (t u : trace DataFrame) :
  new_file_names (t ++ u)%list = (new_file_names t ++ new_file_names u)%list.
Proof.
  induction t as [|ev t IH]; [reflexivity|].
  destruct ev; simpl; rewrite IH; reflexivity.
Qed.

Lemma logged_artifacts_app (t u : trace DataFrame) :
  logged_artifacts (t ++ u)%list = (logged_artifacts t ++ logged_artifacts u)%list.
Proof.
  induction t as [|ev t IH]; [reflexivity|].
  destruct ev; simpl; rewrite IH; reflexivity.
Qed.

Lemma logged_artifacts_none (t : trace DataFrame) :
  count is_log_artifact t = 0%nat -> logged_artifacts t = [].
Proof.
  induction t as [|ev t IH]; [reflexivity|].
  destruct ev; simpl; try exact IH. discriminate.
Qed.

Lemma actions_app (t u : trace DataFrame) :
  actions (t ++ u)%list = (actions t ++ actions u)%list.
Proof.
  induction t as [|ev t IH]; [reflexivity|].
  simpl. destruct (action_of ev); rewrite IH; reflexivity.
Qed.


(** What one call of [load_data] leaves in the trace: one existence test,
    at most one parser call (exactly one when it returns), on the path it
    was given, and nothing of the wandb API. *)
Lemma load_data_shape path sheet :
  let m := load_data env path sheet in
  count is_exists (events m) = 1%nat /\
  (count is_parse (events m) <= 1)%nat /\
  count is_log_artifact (events m) = 0%nat /\
  new_file_names (events m) = [] /\
  (forall v, outcome m = inr v ->
             actions (events m) = [ActLoad path] /\ count is_parse (events m) = 1%nat).
Proof.
  destruct (load_cases env path) as [H|[[H Hf]|(f & H & Hf)]].
  - rewrite (load_data_missing_eq env path sheet H).
    cbn. repeat split; try lia; discriminate.
  - rewrite (load_data_unsupported_eq env path sheet H Hf).
    cbn. repeat split; try lia; discriminate.
  - rewrite (load_data_supported_eq env path sheet f H Hf).
    destruct (events_read_as env f path sheet) as (ev & -> & Hp & Ha).
    destruct ev; try discriminate Hp;
      destruct (outcome (read_as env f path sheet)) as [e|v];
      cbn in Ha |- *; injection Ha as <-;
      repeat split; try lia; try discriminate; reflexivity.
Qed.

End Main.

(** ** Properties of [load_data] *)

Section LoadDataProperties.

Context {DataFrame : Type}.
Variable env : Env DataFrame.

(** C4: a path that is not on disk makes [load_data] raise
    [FileNotFoundError] right after the existence test and its error log:
    no parser is called and no extension is looked at, whatever the path
    and the sheet name are. *)
Theorem load_data_missing path sheet :
  path_exists env path = false ->
  outcome (load_data env path sheet)
  = inl (Exn FileNotFoundError ("File not found: " ++ repr env path)) /\
  events (load_data env path sheet)
  = [EvExists path; EvLog ERROR ("File not found: " ++ path)] /\
  count is_parse (events (load_data env path sheet)) = 0%nat.
Proof.
  intros H. rewrite (load_data_missing_eq env path sheet H).
  repeat split.
Qed.

(** C3: for a file on disk whose extension is none of [.xlsx], [.csv],
    [.json], [load_data] raises [ValueError] (so returns nothing), and no
    parser is called. *)
Theorem load_data_unsupported path sheet :
  path_exists env path = true ->
  ~ In (snd (splitext path)) supported ->
  outcome (load_data env path sheet)
  = inl (Exn ValueError ("Unsupported file format: " ++ repr env (snd (splitext path)))) /\
  count is_parse (events (load_data env path sheet)) = 0%nat.
Proof.
  intros H Hn.
  assert (Hf : format_of_extension (snd (splitext path)) = None).
  { apply format_of_extension_None. unfold supported in Hn. simpl in Hn.
    repeat split; intros Heq; apply Hn; rewrite Heq; tauto. }
  rewrite (load_data_unsupported_eq env path sheet H Hf).
  split; reflexivity.
Qed.

(** C9: the extension test is case-sensitive.  For a file on disk whose
    extension is one of [.xlsx], [.csv], [.json] up to letter case, but not
    letter for letter, [load_data] raises [ValueError] and calls no
    parser. *)
Theorem load_data_case_sensitive path sheet target :
  path_exists env path = true ->
  In target supported ->
  PyStr.eq_ignore_case (snd (splitext path)) target = true ->
  snd (splitext path) <> target ->
  outcome (load_data env path sheet)
  = inl (Exn ValueError ("Unsupported file format: " ++ repr env (snd (splitext path)))) /\
  count is_parse (events (load_data env path sheet)) = 0%nat.
Proof.
  intros H Ht Hc Hne.
  assert (Hf : format_of_extension (snd (splitext path)) = None).
  { apply format_of_extension_None.
    simpl in Ht. destruct Ht as [<-|[<-|[<-|[]]]];
      repeat split; try assumption;
      intros Heq; rewrite Heq in Hc; vm_compute in Hc; discriminate Hc. }
  rewrite (load_data_unsupported_eq env path sheet H Hf).
  split; reflexivity.
Qed.

(** C2, amended: for a file on disk, the parser is chosen by the extension
    that [os.path.splitext] gives, and by nothing else.  With extension
    [.csv], [load_data] ends as [pd.read_csv] on the path does; with
    [.xlsx], as [pd.read_excel] with the given sheet name; with [.json], as
    [pd.read_json] with [orient='split']; and the parser calls in the trace
    are a function of the extension.  A path that ends in one of the three
    extensions right after a character other than a dot and a slash has
    that extension. *)
Theorem load_data_dispatch path sheet :
  path_exists env path = true ->
  let ext := snd (splitext path) in
  (ext = ".csv" ->
   outcome (load_data env path sheet) = outcome (pd_read_csv env path)) /\
  (ext = ".xlsx" ->
   outcome (load_data env path sheet) = outcome (pd_read_excel env path sheet)) /\
  (ext = ".json" ->
   outcome (load_data env path sheet) = outcome (pd_read_json env path "split")) /\
  filter is_parse (events (load_data env path sheet))
  = match format_of_extension ext with
    | Some Excel => [EvReadExcel path sheet]
    | Some Csv => [EvReadCsv path]
    | Some Json => [EvReadJson path "split"]
    | None => []
    end /\
  (forall stem c e,
      path = stem ++ String c e -> In e supported ->
      c <> "."%char -> c <> "/"%char ->
      ext = e).
Proof.
  intros H ext. subst ext.
  assert (Hord : forall stem c e,
             path = stem ++ String c e -> In e supported ->
             c <> "."%char -> c <> "/"%char ->
             snd (splitext path) = e).
  { intros stem c e -> He Hd Hs. simpl in He.
    destruct He as [<-|[<-|[<-|[]]]];
      rewrite SplitextFacts.splitext_ordinary by (assumption || reflexivity);
      reflexivity. }
  assert (Hrun :
    (forall f, format_of_extension (snd (splitext path)) = Some f ->
               outcome (load_data env path sheet) = outcome (read_as env f path sheet)) /\
    filter is_parse (events (load_data env path sheet))
    = match format_of_extension (snd (splitext path)) with
      | Some f => events (read_as env f path sheet)
      | None => []
      end).
  { destruct (format_of_extension (snd (splitext path))) as [f|] eqn:Hf.
    - rewrite (load_data_supported_eq env path sheet f H Hf).
      split; [intros f' [= <-]; reflexivity|].
      cbn [events fst filter is_parse]. rewrite filter_app.
      destruct (outcome (read_as env f path sheet));
        cbn [filter is_parse]; rewrite app_nil_r; destruct f; reflexivity.
    - rewrite (load_data_unsupported_eq env path sheet H Hf).
      split; [discriminate|reflexivity]. }
  destruct Hrun as [Hout Hpar].
  split; [|split; [|split; [|split]]].
  - intros He. apply (Hout Csv). rewrite He. reflexivity.
  - intros He. apply (Hout Excel). rewrite He. reflexivity.
  - intros He. apply (Hout Json). rewrite He. reflexivity.
  - rewrite Hpar.
    destruct (format_of_extension (snd (splitext path))) as [[]|]; reflexivity.
  - exact Hord.
Qed.

(** C8: [load_data] never swallows or replaces an exception.  When the
    parser chosen for the file raises [e], [load_data] raises that same
    [e]; and whenever [load_data] raises, the last thing it did was log an
    error, and what it raises is the parser's exception, or, when no parser
    ran, the [FileNotFoundError] or the [ValueError] it built itself. *)
Theorem load_data_reraises path sheet :
  (forall f e,
      path_exists env path = true ->
      format_of_extension (snd (splitext path)) = Some f ->
      outcome (read_as env f path sheet) = inl e ->
      outcome (load_data env path sheet) = inl e /\
      exists t, events (load_data env path sheet)
                = (t ++ [EvLog ERROR (except_message path e)])%list) /\
  (forall e,
      outcome (load_data env path sheet) = inl e ->
      (exists t msg,
          events (load_data env path sheet) = (t ++ [EvLog ERROR msg])%list) /\
      ((path_exists env path = false /\ exn_type e = FileNotFoundError) \/
       (path_exists env path = true /\
        format_of_extension (snd (splitext path)) = None /\
        exn_type e = ValueError) \/
       (exists f,
           path_exists env path = true /\
           format_of_extension (snd (splitext path)) = Some f /\
           outcome (read_as env f path sheet) = inl e))).
Proof.
  split.
  - intros f e H Hf He.
    rewrite (load_data_supported_eq env path sheet f H Hf).
    destruct (events_read_as env f path sheet) as (ev & Hev & _).
    rewrite He, Hev. split; [reflexivity|].
    eexists [_; _; _]. reflexivity.
  - intros e. destruct (load_cases env path) as [H|[[H Hf]|(f & H & Hf)]].
    + rewrite (load_data_missing_eq env path sheet H). intros [= <-].
      split; [exists [EvExists path]; eexists; reflexivity|].
      left. split; [assumption|reflexivity].
    + rewrite (load_data_unsupported_eq env path sheet H Hf). intros [= <-].
      split; [eexists [_; _]; eexists; reflexivity|].
      right; left. repeat split; assumption.
    + rewrite (load_data_supported_eq env path sheet f H Hf).
      destruct (events_read_as env f path sheet) as (ev & Hev & _).
      cbn [outcome snd events fst]. intros He. rewrite He, Hev.
      split; [eexists [_; _; _]; eexists; reflexivity|].
      right; right. exists f. repeat split; assumption.
Qed.

(** C1, as the code has it: for an [.xlsx] file on disk and no sheet name,
    [load_data] passes [None] to [pd.read_excel] and returns what that
    gives, the [dict] of all sheets; it never returns a single frame. *)
Theorem load_data_xlsx_no_sheet_name path :
  path_exists env path = true ->
  snd (splitext path) = ".xlsx" ->
  outcome (load_data env path None)
  = match read_excel_all env path with
    | inl e => inl e
    | inr sheets => inr (VSheets sheets)
    end /\
  forall df, outcome (load_data env path None) <> inr (VFrame df).
Proof.
  intros H Hx.
  assert (Hf : format_of_extension (snd (splitext path)) = Some Excel)
    by (apply format_of_extension_Some; exact Hx).
  rewrite (load_data_supported_eq env path None Excel H Hf).
  cbn. destruct (read_excel_all env path); split; try reflexivity;
    intros df; discriminate.
Qed.

End LoadDataProperties.

(** ** Properties of [main] *)

Section MainProperties.

Context {DataFrame : Type}.
Variable env : Env DataFrame.

(** C5: when [main] returns, the outside world has seen, in this order and
    nothing else of the kind: one run initialization, one parser call on
    [args.file_path], one CSV serialization of the frame that was loaded,
    and one artifact logged, which holds the serialized text. *)
Theorem main_success_steps args :
  outcome (main env args) = inr tt ->
  exists df content,
    outcome (load_data env (file_path args) (sheet_name args)) = inr (VFrame df) /\
    to_csv env df false = inr content /\
    actions (events (main env args))
    = [ActInit;
       ActLoad (file_path args);
       ActSerialize df false;
       ActLogArtifact (artifact_of args content)].
Proof.
  rewrite main_eq.
  destruct (wandb_init env "data_loader"); [discriminate|].
  cbv zeta.
  destruct (load_data_shape env (file_path args) (sheet_name args))
    as (_ & _ & _ & _ & Hact).
  destruct (outcome (load_data env (file_path args) (sheet_name args)))
    as [e|v]; [discriminate|].
  destruct (Hact v eq_refl) as [Ha _].
  cbn [outcome snd events fst]. intros Hok.
  destruct (after_load_ok env args v Hok) as (df & content & -> & Hc & Hev).
  exists df, content. split; [reflexivity|]. split; [exact Hc|].
  cbn [actions action_of].
  rewrite actions_app, Ha, Hev. reflexivity.
Qed.


(** C7: when the run is initialized and [load_data] raises [e], [main]
    raises [e] and stops there: its trace is the initialization followed by
    that one call of [load_data] (one existence test, at most one parser
    call), and [wandb.log_artifact] is not called. *)
Theorem main_load_failure args e :
  wandb_init env "data_loader" = None ->
  outcome (load_data env (file_path args) (sheet_name args)) = inl e ->
  outcome (main env args) = inl e /\
  events (main env args)
  = EvInit "data_loader" :: events (load_data env (file_path args) (sheet_name args)) /\
  count is_exists (events (main env args)) = 1%nat /\
  (count is_parse (events (main env args)) <= 1)%nat /\
  count is_log_artifact (events (main env args)) = 0%nat.
Proof.
  intros Hi He. rewrite main_eq, Hi. cbv zeta. rewrite He.
  destruct (load_data_shape env (file_path args) (sheet_name args))
    as (Hex & Hp & Hlog & _ & _).
  cbn [outcome snd events fst]. unfold events in *.
  repeat split; try assumption.
Qed.

(** C10: whatever the arguments and the world, the only file [main] ever
    opens inside the artifact is named [raw_data.csv]; and when [main]
    returns, it opened exactly that one file and the artifact it logged
    holds exactly one file, of that name. *)
Theorem main_file_name args :
  (new_file_names (events (main env args)) = [] \/
   new_file_names (events (main env args)) = ["raw_data.csv"]) /\
  (outcome (main env args) = inr tt ->
   new_file_names (events (main env args)) = ["raw_data.csv"] /\
   map (fun a => map fst (art_files a)) (logged_artifacts (events (main env args)))
   = [["raw_data.csv"]]).
Proof.
  rewrite main_eq.
  destruct (wandb_init env "data_loader"); [split; [left; reflexivity|discriminate]|].
  cbv zeta.
  destruct (load_data_shape env (file_path args) (sheet_name args))
    as (_ & _ & Hlog & Hnf & _).
  apply logged_artifacts_none in Hlog.
  destruct (outcome (load_data env (file_path args) (sheet_name args))) as [e|v].
  - cbn [outcome snd events fst new_file_names].
    split; [left; exact Hnf|discriminate].
  - cbn [outcome snd events fst new_file_names logged_artifacts].
    rewrite new_file_names_app, logged_artifacts_app, Hnf, Hlog.
    cbn [app]. split; [apply after_load_new_files|].
    intros Hok. destruct (after_load_ok env args v Hok) as (df & content & -> & _ & Hev).
    rewrite Hev. split; reflexivity.
Qed.

(** With an [.xlsx] file and no sheet name, [main] cannot return: what
    [load_data] hands it is a [dict], which has no [to_csv]. *)
Lemma main_xlsx_no_sheet_name_fails args :
  path_exists env (file_path args) = true ->
  snd (splitext (file_path args)) = ".xlsx" ->
  sheet_name args = None ->
  outcome (main env args) <> inr tt.
Proof.
  intros H Hx Hs Hok.
  assert (Hf : format_of_extension (snd (splitext (file_path args))) = Some Excel)
    by (apply format_of_extension_Some; exact Hx).
  revert Hok. rewrite main_eq.
  destruct (wandb_init env "data_loader"); [discriminate|].
  cbv zeta. rewrite (load_data_supported_eq env _ _ Excel H Hf), Hs.
  cbn. destruct (read_excel_all env (file_path args)); [discriminate|].
  intros Hok. destruct (after_load_ok env args _ Hok) as (df & content & Hv & _).
  discriminate Hv.
Qed.

End MainProperties.

(** ** The properties at work in the small world *)

Lemma load_data_missing_witness :
  path_exists Demo.env "gone.xlsx" = false /\
  outcome (load_data Demo.env "gone.xlsx" (Some "people"))
  = inl (Exn FileNotFoundError "File not found: 'gone.xlsx'") /\
  count is_parse (events (load_data Demo.env "gone.xlsx" (Some "people"))) = 0%nat.
Proof.
  split; [reflexivity|].
  destruct (load_data_missing Demo.env "gone.xlsx" (Some "people")) as (Ho & _ & Hc);
    [reflexivity|].
  split; [exact Ho | exact Hc].
Defined.

Lemma load_data_unsupported_witness :
  path_exists Demo.env "notes.txt" = true /\
  ~ In (snd (splitext "notes.txt")) supported /\
  outcome (load_data Demo.env "notes.txt" None)
  = inl (Exn ValueError "Unsupported file format: '.txt'").
Proof.
  assert (Hn : ~ In (snd (splitext "notes.txt")) supported)
    by (vm_compute; intuition discriminate).
  split; [reflexivity|]. split; [exact Hn|].
  exact (proj1 (load_data_unsupported Demo.env "notes.txt" None eq_refl Hn)).
Defined.

Lemma load_data_case_sensitive_witness :
  path_exists Demo.env "data.CSV" = true /\
  PyStr.eq_ignore_case (snd (splitext "data.CSV")) ".csv" = true /\
  outcome (load_data Demo.env "data.CSV" None)
  = inl (Exn ValueError "Unsupported file format: '.CSV'").
Proof.
  split; [reflexivity|]. split; [reflexivity|].
  refine (proj1 (load_data_case_sensitive Demo.env "data.CSV" None ".csv"
                   eq_refl _ eq_refl _)).
  - simpl. tauto.
  - vm_compute. discriminate.
Defined.

Example load_data_mixed_case_json :
  outcome (load_data Demo.env "data.Json" None)
  = inl (Exn ValueError "Unsupported file format: '.Json'").
Proof. reflexivity. Qed.

Lemma load_data_dispatch_witness :
  path_exists Demo.env "data.csv" = true /\
  outcome (load_data Demo.env "data.csv" None) = outcome (pd_read_csv Demo.env "data.csv") /\
  filter is_parse (events (load_data Demo.env "data.csv" None)) = [EvReadCsv "data.csv"] /\
  snd (splitext "data.csv") = ".csv".
Proof.
  split; [reflexivity|].
  destruct (load_data_dispatch Demo.env "data.csv" None eq_refl) as (Hc & _ & _ & Hp & Ho).
  split; [exact (Hc eq_refl)|]. split; [exact Hp|].
  apply (Ho "dat" "a"%char ".csv"); [reflexivity|simpl; tauto|discriminate|discriminate].
Defined.

(** C2 as it is worded fails on a hidden file: the path [.csv] ends in
    [.csv] and is on disk, [pd.read_csv] would read it, but
    [os.path.splitext] gives it the empty extension and [load_data] raises
    [ValueError]. *)
Lemma load_data_dot_csv_rejected :
  PyStr.endswith ".csv" ".csv" = true /\
  path_exists Demo.env ".csv" = true /\
  splitext ".csv" = (".csv", "") /\
  outcome (pd_read_csv Demo.env ".csv") = inr (VFrame Demo.people) /\
  outcome (load_data Demo.env ".csv" None)
  = inl (Exn ValueError "Unsupported file format: ''") /\
  outcome (load_data Demo.env ".csv" None) <> outcome (pd_read_csv Demo.env ".csv").
Proof.
  repeat split; try reflexivity. vm_compute. discriminate.
Qed.

Lemma load_data_reraises_witness :
  path_exists Demo.env "empty.csv" = true /\
  outcome (read_as Demo.env Csv "empty.csv" None)
  = inl (Exn EmptyDataError "No columns to parse from file") /\
  outcome (load_data Demo.env "empty.csv" None)
  = inl (Exn EmptyDataError "No columns to parse from file").
Proof.
  split; [reflexivity|]. split; [reflexivity|].
  exact (proj1 (proj1 (load_data_reraises Demo.env "empty.csv" None)
                      Csv (Exn EmptyDataError "No columns to parse from file")
                      eq_refl eq_refl eq_refl)).
Defined.

Lemma load_data_xlsx_no_sheet_name_witness :
  path_exists Demo.env "book.xlsx" = true /\
  snd (splitext "book.xlsx") = ".xlsx" /\
  outcome (load_data Demo.env "book.xlsx" None)
  = inr (VSheets [("people", Demo.people); ("towns", Demo.towns)]).
Proof.
  split; [reflexivity|]. split; [reflexivity|].
  exact (proj1 (load_data_xlsx_no_sheet_name Demo.env "book.xlsx" eq_refl eq_refl)).
Defined.

(** The same file through [main]: the run is initialized, the workbook is
    read, and [df.to_csv] fails on the [dict]; nothing is logged. *)
Example main_xlsx_no_sheet_name_run :
  main Demo.env (Demo.args "book.xlsx" None) =
  ([EvInit "data_loader";
    EvExists "book.xlsx";
    EvLog INFO "Loading Excel file from book.xlsx";
    EvReadExcel "book.xlsx" None;
    EvLog INFO "Successfully loaded data from book.xlsx";
    EvArtifact "raw" (Some "dataset") None;
    EvNewFile "raw_data.csv" "w"],
   inl (Exn AttributeError "'dict' object has no attribute 'to_csv'")).
Proof. reflexivity. Qed.

(** A frame is loaded and [to_csv] raises: the file was opened, nothing is
    added to the artifact and nothing is logged. *)
Example main_to_csv_raises_run :
  main (DemoFaults.with_file_faults (Some DemoFaults.disk_full) None)
       (Demo.args "data.csv" None) =
  ([EvInit "data_loader";
    EvExists "data.csv";
    EvLog INFO "Loading CSV file from data.csv";
    EvReadCsv "data.csv";
    EvLog INFO "Successfully loaded data from data.csv";
    EvArtifact "raw" (Some "dataset") None;
    EvNewFile "raw_data.csv" "w";
    EvToCsv Demo.people false],
   inl DemoFaults.disk_full).
Proof. reflexivity. Qed.

(** The same when leaving the [new_file] block raises. *)
Example main_new_file_exit_raises_run :
  main (DemoFaults.with_file_faults None (Some DemoFaults.disk_full))
       (Demo.args "data.csv" None)
  = main (DemoFaults.with_file_faults (Some DemoFaults.disk_full) None)
         (Demo.args "data.csv" None).
Proof. reflexivity. Qed.

Lemma main_success_steps_witness :
  outcome (main Demo.env (Demo.args "data.csv" None)) = inr tt /\
  exists df content,
    outcome (load_data Demo.env "data.csv" None) = inr (VFrame df) /\
    to_csv Demo.env df false = inr content /\
    actions (events (main Demo.env (Demo.args "data.csv" None)))
    = [ActInit; ActLoad "data.csv"; ActSerialize df false;
       ActLogArtifact (artifact_of (Demo.args "data.csv" None) content)].
Proof.
  split; [reflexivity|].
  exact (main_success_steps Demo.env (Demo.args "data.csv" None) eq_refl).
Defined.



Lemma main_load_failure_witness :
  wandb_init Demo.env "data_loader" = None /\
  outcome (load_data Demo.env "empty.csv" None)
  = inl (Exn EmptyDataError "No columns to parse from file") /\
  outcome (main Demo.env (Demo.args "empty.csv" None))
  = inl (Exn EmptyDataError "No columns to parse from file") /\
  count is_log_artifact (events (main Demo.env (Demo.args "empty.csv" None))) = 0%nat.
Proof.
  split; [reflexivity|]. split; [reflexivity|].
  destruct (main_load_failure Demo.env (Demo.args "empty.csv" None)
              (Exn EmptyDataError "No columns to parse from file") eq_refl eq_refl)
    as (Ho & _ & _ & _ & Hl).
  split; [exact Ho | exact Hl].
Defined.

Lemma main_file_name_witness :
  outcome (main Demo.env (mkArgs "book.xlsx" (Some "towns") "towns-v2" None None)) = inr tt /\
  new_file_names
    (events (main Demo.env (mkArgs "book.xlsx" (Some "towns") "towns-v2" None None)))
  = ["raw_data.csv"].
Proof.
  split; [reflexivity|].
  exact (proj1 (proj2 (main_file_name Demo.env
                         (mkArgs "book.xlsx" (Some "towns") "towns-v2" None None))
                      eq_refl)).
Defined.

(** * Further properties *)

(** ** [load_data]: the sheet name, the value returned, the parser calls *)

Section LoadDataMore.

Context {DataFrame : Type}.
Variable env : Env DataFrame.

Lemma read_as_sheets_inv f path sheet sheets :
  outcome (read_as env f path sheet) = inr (VSheets sheets) ->
  f = Excel /\ sheet = None /\ read_excel_all env path = inr sheets.
Proof.
  destruct f; cbn.
  - destruct sheet as [name|].
    + destruct (read_excel_sheet env path name); discriminate.
    + destruct (read_excel_all env path) as [e|sh]; [discriminate|].
      intros [= ->]. repeat split.
  - destruct (read_csv env path); discriminate.
  - destruct (read_json env path "split"); discriminate.
Qed.

(** X1: the sheet name matters for [.xlsx] files only.  For a path with
    any other extension, [load_data] does the same calls and ends the same
    way whatever sheet name it is given. *)
Theorem load_data_sheet_name_unused path sheet1 sheet2 :
  snd (splitext path) <> ".xlsx" ->
  load_data env path sheet1 = load_data env path sheet2.
Proof.
  intros Hx.
  destruct (load_cases env path) as [H|[[H Hf]|(f & H & Hf)]].
  - rewrite !(load_data_missing_eq env path _ H). reflexivity.
  - rewrite !(load_data_unsupported_eq env path _ H Hf). reflexivity.
  - rewrite !(load_data_supported_eq env path _ f H Hf).
    pose proof (proj1 (format_of_extension_Some _ _) Hf) as He.
    destruct f; [contradiction|reflexivity|reflexivity].
Qed.

(** X2: [load_data] returns a [dict] of sheets in one situation only: the
    extension is [.xlsx], no sheet name was given, and the [dict] is what
    [pd.read_excel] read from the workbook. *)
Theorem load_data_sheets_only_for_xlsx path sheet sheets :
  outcome (load_data env path sheet) = inr (VSheets sheets) ->
  snd (splitext path) = ".xlsx" /\
  sheet = None /\
  read_excel_all env path = inr sheets.
Proof.
  intros Hv.
  destruct (load_data_ok_inv env _ _ _ Hv) as (f & _ & Hf & Hr).
  destruct (read_as_sheets_inv _ _ _ _ Hr) as (-> & Hs & Ha).
  apply format_of_extension_Some in Hf. repeat split; assumption.
Qed.

(** X3: with a sheet name, or for a file that is not [.xlsx], whatever
    [load_data] returns is a single frame. *)
Theorem load_data_single_frame path sheet v :
  sheet <> None \/ snd (splitext path) <> ".xlsx" ->
  outcome (load_data env path sheet) = inr v ->
  exists df, v = VFrame df.
Proof.
  intros Hc Hv. destruct v as [df|sheets]; [exists df; reflexivity|].
  destruct (load_data_ok_inv env _ _ _ Hv) as (f & _ & Hf & Hr).
  destruct (read_as_sheets_inv _ _ _ _ Hr) as (-> & Hs & _).
  apply format_of_extension_Some in Hf.
  destruct Hc; contradiction.
Qed.

(** X4: [load_data] calls a parser exactly when the file is on disk and its
    extension is one of the three supported ones, and then calls it once. *)
Theorem load_data_parser_calls path sheet :
  count is_parse (events (load_data env path sheet))
  = if path_exists env path && existsb (String.eqb (snd (splitext path))) supported
    then 1%nat else 0%nat.
Proof.
  assert (Hs : forall ext,
             existsb (String.eqb ext) supported
             = match format_of_extension ext with Some _ => true | None => false end).
  { intros ext. unfold format_of_extension. cbn.
    destruct (String.eqb ext ".xlsx"); [reflexivity|].
    destruct (String.eqb ext ".csv"); [reflexivity|].
    destruct (String.eqb ext ".json"); reflexivity. }
  rewrite Hs.
  destruct (load_cases env path) as [H|[[H Hf]|(f & H & Hf)]]; rewrite H.
  - rewrite (load_data_missing_eq env path sheet H). reflexivity.
  - rewrite (load_data_unsupported_eq env path sheet H Hf), Hf. reflexivity.
  - rewrite Hf. cbn [andb].
    rewrite (load_data_supported_eq env path sheet f H Hf).
    destruct (events_read_as env f path sheet) as (ev & Hev & Hp & _).
    unfold count, events in *. cbn [fst]. rewrite Hev.
    cbn [filter is_parse app]. rewrite Hp.
    destruct (outcome (read_as env f path sheet)); reflexivity.
Qed.

End LoadDataMore.

(** ** [load_data]: what it logs *)

Section LoadDataLogs.

Context {DataFrame : Type}.
Variable env : Env DataFrame.

Lemma parse_event_kinds (ev : event DataFrame) :
  is_parse ev = true ->
  is_error_log ev = false /\ is_loader_event ev = true /\
  forall lvl msg, ev <> EvLog lvl msg.
Proof. destruct ev; try discriminate; repeat split; discriminate. Qed.

(** X5: an unsupported extension is reported twice.  The [ValueError] is
    raised inside the [try], so after the "Unsupported file format" log the
    [except Exception] clause logs it again, with its message, before it
    re-raises it; nothing else happens after the existence test. *)
Theorem load_data_unsupported_logs path sheet :
  path_exists env path = true ->
  ~ In (snd (splitext path)) supported ->
  events (load_data env path sheet)
  = [EvExists path;
     EvLog ERROR ("Unsupported file format: " ++ snd (splitext path));
     EvLog ERROR ("An error occurred: Unsupported file format: "
                  ++ repr env (snd (splitext path)))].
Proof.
  intros H Hn.
  assert (Hf : format_of_extension (snd (splitext path)) = None).
  { apply format_of_extension_None. unfold supported in Hn. simpl in Hn.
    repeat split; intros Heq; apply Hn; rewrite Heq; tauto. }
  rewrite (load_data_unsupported_eq env path sheet H Hf). reflexivity.
Qed.

(** X6: when the parser raises, [load_data] logs exactly one error, chosen
    by the class of the exception: "No data: ... is empty" for
    [EmptyDataError], "Parse error: could not parse ..." for [ParserError],
    and "An error occurred: " with the exception's message for any other
    class. *)
Theorem load_data_parser_error_log path sheet f e :
  path_exists env path = true ->
  format_of_extension (snd (splitext path)) = Some f ->
  outcome (read_as env f path sheet) = inl e ->
  filter is_error_log (events (load_data env path sheet))
  = [EvLog ERROR
       match exn_type e with
       | EmptyDataError => "No data: " ++ path ++ " is empty"
       | ParserError => "Parse error: could not parse " ++ path
       | _ => "An error occurred: " ++ exn_message e
       end].
Proof.
  intros H Hf He.
  rewrite (load_data_supported_eq env path sheet f H Hf), He.
  destruct (events_read_as env f path sheet) as (ev & Hev & Hp & _).
  destruct (parse_event_kinds ev Hp) as (Hnl & _ & _).
  unfold events in *. cbn [fst]. rewrite Hev.
  cbn [filter is_error_log app]. rewrite Hnl.
  destruct e as [c m]. destruct c; reflexivity.
Qed.

(** X7: the message "Successfully loaded data from ..." is logged exactly
    when [load_data] returns a value. *)
Theorem load_data_success_log path sheet :
  In (EvLog INFO ("Successfully loaded data from " ++ path))
     (events (load_data env path sheet))
  <-> exists v, outcome (load_data env path sheet) = inr v.
Proof.
  destruct (load_cases env path) as [H|[[H Hf]|(f & H & Hf)]].
  - rewrite (load_data_missing_eq env path sheet H). cbn. split.
    + intros [Hi|[Hi|[]]]; discriminate.
    + intros [v Hv]. discriminate.
  - rewrite (load_data_unsupported_eq env path sheet H Hf). cbn. split.
    + intros [Hi|[Hi|[Hi|[]]]]; discriminate.
    + intros [v Hv]. discriminate.
  - rewrite (load_data_supported_eq env path sheet f H Hf).
    destruct (events_read_as env f path sheet) as (ev & Hev & Hp & _).
    destruct (parse_event_kinds ev Hp) as (_ & _ & Hne).
    unfold events, outcome in *. cbn [fst snd]. rewrite Hev.
    destruct (snd (read_as env f path sheet)) as [e|v]; cbn [app]; split.
    + intros [Hi|[Hi|[Hi|[Hi|[]]]]]; try discriminate.
      exfalso. exact (Hne _ _ Hi).
    + intros [v Hv]. discriminate.
    + intros _. exists v. reflexivity.
    + intros _. right. right. right. left. reflexivity.
Qed.

Lemma load_data_loader_events path sheet :
  forallb is_loader_event (events (load_data env path sheet)) = true.
Proof.
  destruct (load_cases env path) as [H|[[H Hf]|(f & H & Hf)]].
  - rewrite (load_data_missing_eq env path sheet H). reflexivity.
  - rewrite (load_data_unsupported_eq env path sheet H Hf). reflexivity.
  - rewrite (load_data_supported_eq env path sheet f H Hf).
    destruct (events_read_as env f path sheet) as (ev & Hev & Hp & _).
    destruct (parse_event_kinds ev Hp) as (_ & Hl & _).
    unfold events in *. cbn [fst]. rewrite Hev.
    cbn [forallb is_loader_event app]. rewrite Hl.
    destruct (outcome (read_as env f path sheet)); reflexivity.
Qed.

(** X8: every call of [load_data] starts with the existence test of the
    path it was given, and makes no call other than that test, log messages
    and parser calls: it never touches the wandb client and never writes
    anything. *)
Theorem load_data_calls path sheet :
  (exists t, events (load_data env path sheet) = EvExists path :: t) /\
  forallb is_loader_event (events (load_data env path sheet)) = true.
Proof.
  split; [|apply load_data_loader_events].
  destruct (load_cases env path) as [H|[[H Hf]|(f & H & Hf)]].
  - rewrite (load_data_missing_eq env path sheet H). eexists; reflexivity.
  - rewrite (load_data_unsupported_eq env path sheet H Hf). eexists; reflexivity.
  - rewrite (load_data_supported_eq env path sheet f H Hf). eexists; reflexivity.
Qed.

End LoadDataLogs.

(** ** [main]: failures, order and repetition of its calls *)

Section MainMore.

Context {DataFrame : Type}.
Variable env : Env DataFrame.

Lemma count_cons_app f (ev : event DataFrame) (t u : trace DataFrame) :
  count f (ev :: t ++ u)%list
  = ((if f ev then 1 else 0) + count f t + count f u)%nat.
Proof.
  unfold count. cbn [filter]. rewrite filter_app.
  destruct (f ev); cbn [List.length]; rewrite length_app; lia.
Qed.

Lemma count_cons f (ev : event DataFrame) (t : trace DataFrame) :
  count f (ev :: t) = ((if f ev then 1 else 0) + count f t)%nat.
Proof. unfold count. cbn [filter]. destruct (f ev); reflexivity. Qed.

(** A trace of loader events holds no call of the wandb client and no
    serialization. *)
Lemma loader_events_counts (t : trace DataFrame) :
  forallb is_loader_event t = true ->
  count is_init t = 0%nat /\ count is_artifact t = 0%nat /\
  count is_new_file t = 0%nat /\ count is_to_csv t = 0%nat.
Proof.
  induction t as [|ev t IH]; [repeat split|].
  cbn [forallb]. intros Hc. apply andb_prop in Hc. destruct Hc as [Hev Ht].
  destruct (IH Ht) as (H1 & H2 & H3 & H4).
  rewrite !count_cons, H1, H2, H3, H4.
  destruct ev; try discriminate Hev; repeat split.
Qed.

Lemma load_data_actions path sheet :
  actions (events (load_data env path sheet)) = [] \/
  actions (events (load_data env path sheet)) = [ActLoad path].
Proof.
  destruct (load_cases env path) as [H|[[H Hf]|(f & H & Hf)]].
  - rewrite (load_data_missing_eq env path sheet H). left; reflexivity.
  - rewrite (load_data_unsupported_eq env path sheet H Hf). left; reflexivity.
  - rewrite (load_data_supported_eq env path sheet f H Hf).
    destruct (events_read_as env f path sheet) as (ev & Hev & _ & Ha).
    unfold events in *. cbn [fst]. rewrite Hev. cbn [actions action_of app].
    rewrite Ha. right. destruct (outcome (read_as env f path sheet)); reflexivity.
Qed.

Lemma load_data_info_logs path sheet msg :
  In (EvLog INFO msg) (events (load_data env path sheet)) ->
  (exists rest, msg = "Loading " ++ rest) \/
  msg = "Successfully loaded data from " ++ path.
Proof.
  destruct (load_cases env path) as [H|[[H Hf]|(f & H & Hf)]].
  - rewrite (load_data_missing_eq env path sheet H). cbn.
    intros [Hi|[Hi|[]]]; discriminate.
  - rewrite (load_data_unsupported_eq env path sheet H Hf). cbn.
    intros [Hi|[Hi|[Hi|[]]]]; discriminate.
  - rewrite (load_data_supported_eq env path sheet f H Hf).
    destruct (events_read_as env f path sheet) as (ev & Hev & Hp & _).
    destruct (parse_event_kinds ev Hp) as (_ & _ & Hne).
    unfold events in *. cbn [fst]. rewrite Hev.
    destruct (outcome (read_as env f path sheet)) as [e|v]; cbn [app In].
    + intros [Hi|[Hi|[Hi|[Hi|[]]]]]; try discriminate.
      * injection Hi as <-. left. eexists. reflexivity.
      * exfalso. exact (Hne _ _ Hi).
    + intros [Hi|[Hi|[Hi|[Hi|[]]]]]; try discriminate.
      * injection Hi as <-. left. eexists. reflexivity.
      * exfalso. exact (Hne _ _ Hi).
      * injection Hi as <-. right. reflexivity.
Qed.

(** X9: [wandb.init] comes first in every run, before the file is even
    tested for existence; when it raises, [main] raises the same exception
    and has done nothing else. *)
Theorem main_init_first args :
  (exists t, events (main env args) = EvInit "data_loader" :: t) /\
  (forall e, wandb_init env "data_loader" = Some e ->
             main env args = ([EvInit "data_loader"], inl e)).
Proof.
  rewrite main_eq. split.
  - destruct (wandb_init env "data_loader"); [eexists; reflexivity|]. cbv zeta.
    destruct (outcome (load_data env (file_path args) (sheet_name args)));
      eexists; reflexivity.
  - intros e ->. reflexivity.
Qed.

(** X10: the steps of a run always come in the same order, and a run that
    fails is a run cut short.  The initializations, parser calls,
    serializations and artifact logs of any run of [main] are: the
    initialization alone; or followed by one parser call on
    [args.file_path]; or followed further by one [to_csv(index=False)] of
    the frame that was loaded; or followed at last, when that call gave a
    text, by one [log_artifact] of the artifact holding it. *)
Theorem main_actions_prefix args :
  let p := file_path args in
  actions (events (main env args)) = [ActInit] \/
  actions (events (main env args)) = [ActInit; ActLoad p] \/
  exists df,
    outcome (load_data env p (sheet_name args)) = inr (VFrame df) /\
    (actions (events (main env args)) = [ActInit; ActLoad p; ActSerialize df false] \/
     exists content,
       to_csv env df false = inr content /\
       actions (events (main env args))
       = [ActInit; ActLoad p; ActSerialize df false;
          ActLogArtifact (artifact_of args content)]).
Proof.
  cbv zeta. rewrite main_eq.
  destruct (wandb_init env "data_loader"); [left; reflexivity|]. cbv zeta.
  destruct (load_data_shape env (file_path args) (sheet_name args))
    as (_ & _ & _ & _ & Hok).
  destruct (outcome (load_data env (file_path args) (sheet_name args)))
    as [e|v] eqn:Hl.
  - cbn [events fst actions action_of].
    destruct (load_data_actions (file_path args) (sheet_name args)) as [Ha|Ha];
      rewrite Ha; [left|right; left]; reflexivity.
  - destruct (Hok v eq_refl) as [Ha _].
    cbn [events fst actions action_of]. rewrite actions_app, Ha.
    rewrite after_load_eq. cbv zeta.
    destruct (wandb_Artifact env _ _ _); [right; left; reflexivity|].
    destruct (wandb_new_file env _ _); [right; left; reflexivity|].
    destruct v as [df|sheets]; [|right; left; reflexivity].
    right; right. exists df. split; [reflexivity|].
    destruct (to_csv env df false) as [e|content]; [left; reflexivity|].
    destruct (wandb_new_file_exit env _ _); [left; reflexivity|].
    right. exists content. split; [reflexivity|].
    destruct (wandb_log_artifact env _); reflexivity.
Qed.

(** X11: nothing is tried twice.  In any run of [main], whether it returns
    or raises, [wandb.init] is called once and each of the existence test,
    the parser, the [Artifact] constructor, [new_file], [to_csv] and
    [log_artifact] at most once. *)
Theorem main_no_retry args :
  let t := events (main env args) in
  count is_init t = 1%nat /\
  (count is_exists t <= 1)%nat /\
  (count is_parse t <= 1)%nat /\
  (count is_artifact t <= 1)%nat /\
  (count is_new_file t <= 1)%nat /\
  (count is_to_csv t <= 1)%nat /\
  (count is_log_artifact t <= 1)%nat.
Proof.
  cbv zeta. rewrite main_eq.
  destruct (wandb_init env "data_loader");
    [cbn; repeat split; lia|]. cbv zeta.
  destruct (load_data_shape env (file_path args) (sheet_name args))
    as (Hex & Hp & Hlog & _ & _).
  destruct (loader_events_counts _
              (load_data_loader_events env (file_path args) (sheet_name args)))
    as (Hi & Ha & Hn & Hc).
  destruct (outcome (load_data env (file_path args) (sheet_name args))) as [e|v].
  - cbn [events fst]. rewrite !count_cons, Hex, Hi, Ha, Hn, Hc, Hlog.
    set (np := count is_parse _) in *. cbn. repeat split; lia.
  - cbn [events fst]. rewrite !count_cons_app, Hex, Hi, Ha, Hn, Hc, Hlog.
    set (np := count is_parse (events (load_data _ _ _))) in *.
    rewrite after_load_eq. cbv zeta.
    destruct (wandb_Artifact env _ _ _); [cbn; repeat split; lia|].
    destruct (wandb_new_file env _ _); [cbn; repeat split; lia|].
    destruct v as [df|sheets]; [|cbn; repeat split; lia].
    destruct (to_csv env df false) as [e|content]; [cbn; repeat split; lia|].
    destruct (wandb_new_file_exit env _ _); [cbn; repeat split; lia|].
    destruct (wandb_log_artifact env _); cbn; repeat split; lia.
Qed.

(** X12: [main] never hands an empty or half-built artifact to
    [wandb.log_artifact].  Whatever it passes, also in a run where
    [log_artifact] then raises, carries the name, type and description of the
    arguments and exactly one file, [raw_data.csv], holding the text that
    [to_csv(index=False)] gave for the frame [load_data] returned. *)
Theorem main_logged_artifact_complete args a :
  In a (logged_artifacts (events (main env args))) ->
  exists df content,
    outcome (load_data env (file_path args) (sheet_name args)) = inr (VFrame df) /\
    to_csv env df false = inr content /\
    a = mkArtifact (artifact_name args) (artifact_type args)
                   (artifact_description args)
                   [("raw_data.csv", content)].
Proof.
  rewrite main_eq.
  destruct (wandb_init env "data_loader"); [intros []|]. cbv zeta.
  destruct (load_data_shape env (file_path args) (sheet_name args))
    as (_ & _ & Hlog & _ & _).
  apply logged_artifacts_none in Hlog.
  destruct (outcome (load_data env (file_path args) (sheet_name args))) as [e|v].
  - cbn [events fst logged_artifacts]. rewrite Hlog. intros [].
  - cbn [events fst logged_artifacts]. rewrite logged_artifacts_app, Hlog.
    rewrite after_load_eq. cbv zeta.
    destruct (wandb_Artifact env _ _ _); [intros []|].
    destruct (wandb_new_file env _ _); [intros []|].
    destruct v as [df|sheets]; [|intros []].
    destruct (to_csv env df false) as [e|content] eqn:Hc; [intros []|].
    destruct (wandb_new_file_exit env _ _); [intros []|].
    destruct (wandb_log_artifact env _); cbn; intros [<-|[]];
      exists df, content; repeat split; exact Hc.
Qed.

(** X13: the closing message "Data loaded and artifact logged to Weights &
    Biases" is logged exactly when [main] returns; no failing run claims
    success. *)
Theorem main_final_log_iff_success args :
  In (EvLog INFO "Data loaded and artifact logged to Weights & Biases")
     (events (main env args))
  <-> outcome (main env args) = inr tt.
Proof.
  set (done := EvLog INFO "Data loaded and artifact logged to Weights & Biases").
  assert (Hload :
    ~ In done (events (load_data env (file_path args) (sheet_name args)))).
  { intros Hi. apply load_data_info_logs in Hi.
    destruct Hi as [[rest Hi]|Hi]; cbn in Hi; discriminate. }
  assert (Hin : forall u,
    In done (EvInit "data_loader"
               :: events (load_data env (file_path args) (sheet_name args)) ++ u)%list
    <-> In done u).
  { intros u. split.
    - intros [Hi|Hi]; [discriminate|].
      apply in_app_or in Hi. destruct Hi as [Hi|Hi]; [contradiction|exact Hi].
    - intros Hi. right. apply in_or_app. right. exact Hi. }
  rewrite main_eq.
  destruct (wandb_init env "data_loader").
  { cbn. split; [intros [Hi|[]]|]; discriminate. }
  cbv zeta.
  destruct (outcome (load_data env (file_path args) (sheet_name args))) as [e|v].
  - cbn [events outcome fst snd]. split; [|discriminate].
    intros [Hi|Hi]; [discriminate|contradiction].
  - cbn [events outcome fst snd]. rewrite Hin, after_load_eq. cbv zeta.
    destruct (wandb_Artifact env _ _ _);
      [cbn; split; [intros [Hi|[]]|]; discriminate|].
    destruct (wandb_new_file env _ _);
      [cbn; split; [intros [Hi|[Hi|[]]]|]; discriminate|].
    destruct v as [df|sheets];
      [|cbn; split; [intros [Hi|[Hi|[]]]|]; discriminate].
    destruct (to_csv env df false) as [e|content];
      [cbn; split; [intros [Hi|[Hi|[Hi|[]]]]|]; discriminate|].
    destruct (wandb_new_file_exit env _ _);
      [cbn; split; [intros [Hi|[Hi|[Hi|[]]]]|]; discriminate|].
    destruct (wandb_log_artifact env _); cbn.
    + split; [intros [Hi|[Hi|[Hi|[Hi|[]]]]]|]; discriminate.
    + split; [reflexivity|]. intros _. do 4 right. left. reflexivity.
Qed.

(** X14: what [main] does with an [.xlsx] file and no sheet name.  When the
    run is initialized, the workbook is read, and the artifact and its file
    are opened, [main] raises [AttributeError] on [df.to_csv]: the file
    [raw_data.csv] was opened, nothing was serialized, and no artifact is
    logged. *)
Theorem main_xlsx_no_sheet_name_raises args sheets :
  wandb_init env "data_loader" = None ->
  path_exists env (file_path args) = true ->
  snd (splitext (file_path args)) = ".xlsx" ->
  sheet_name args = None ->
  read_excel_all env (file_path args) = inr sheets ->
  wandb_Artifact env (artifact_name args) (artifact_type args)
                 (artifact_description args) = None ->
  wandb_new_file env "raw_data.csv" "w" = None ->
  outcome (main env args)
  = inl (Exn AttributeError "'dict' object has no attribute 'to_csv'") /\
  new_file_names (events (main env args)) = ["raw_data.csv"] /\
  count is_to_csv (events (main env args)) = 0%nat /\
  logged_artifacts (events (main env args)) = [].
Proof.
  intros Hi H Hx Hs Hr Ha Hn.
  assert (Hf : format_of_extension (snd (splitext (file_path args))) = Some Excel)
    by (apply format_of_extension_Some; exact Hx).
  rewrite main_eq, Hi. cbv zeta.
  rewrite (load_data_supported_eq env _ _ Excel H Hf), Hs.
  cbn [read_as pd_read_excel call outcome events fst snd]. rewrite Hr.
  rewrite after_load_eq. cbv zeta. rewrite Ha, Hn.
  repeat split.
Qed.

End MainMore.

(** ** The extension [load_data] dispatches on *)

Module SplitextShape.

Import PyStr SplitextFacts.

Lemma rfind_from_none c s i :
  0 <= i -> rfind_from c s i = -1 -> mem c s = false.
Proof.
  revert i. induction s as [|a s IH]; intros i Hi; simpl; [reflexivity|].
  destruct (rfind_from_range c s (i + 1)) as [Hr|Hr].
  - rewrite Hr. simpl. destruct (Ascii.eqb a c); [lia|].
    intros _. apply (IH (i + 1)); [lia|exact Hr].
  - destruct (Z.leb_spec 0 (rfind_from c s (i + 1))); lia.
Qed.

(** Where [rfind] finds [c], the string splits into what is before that
    [c] and a rest without [c]. *)
Lemma rfind_from_split c s i :
  0 <= i -> 0 <= rfind_from c s i ->
  exists pre post,
    s = pre ++ String c post /\
    rfind_from c s i = i + Z.of_nat (String.length pre) /\
    mem c post = false.
Proof.
  revert i. induction s as [|a s IH]; intros i Hi; simpl; [lia|].
  destruct (Z.leb_spec 0 (rfind_from c s (i + 1))) as [Hr|Hr].
  - intros _. destruct (IH (i + 1)) as (pre & post & -> & Hlen & Hm); [lia|exact Hr|].
    exists (String a pre), post. repeat split; [|exact Hm].
    rewrite Hlen. cbn [String.length]. lia.
  - destruct (Ascii.eqb_spec a c) as [->|]; [|lia].
    intros _. exists "", s. repeat split; [simpl; lia|].
    apply (rfind_from_none c s (i + 1)); [lia|].
    destruct (rfind_from_range c s (i + 1)); lia.
Qed.

(** An occurrence of [c] in [t] puts [rfind] beyond [s] in [s ++ t]. *)
Lemma rfind_from_app_present c s t i :
  0 <= i -> mem c t = true ->
  i + Z.of_nat (String.length s) <= rfind_from c (s ++ t) i.
Proof.
  revert i. induction s as [|a s IH]; intros i Hi Hm.
  - simpl. destruct (rfind_from_range c t i) as [Hr|Hr]; [|lia].
    rewrite (rfind_from_none c t i Hi Hr) in Hm. discriminate.
  - simpl. specialize (IH (i + 1) ltac:(lia) Hm).
    destruct (Z.leb_spec 0 (rfind_from c (s ++ t) (i + 1))); lia.
Qed.

Lemma scan_result p dotIndex filenameIndex n :
  splitext_scan p dotIndex filenameIndex n = (p, "") \/
  splitext_scan p dotIndex filenameIndex n = (take p dotIndex, drop p dotIndex).
Proof.
  revert filenameIndex. induction n as [|n IH]; intros fi; simpl; [left; reflexivity|].
  destruct (fi <? dotIndex); [|left; reflexivity].
  destruct (negb _); [right; reflexivity|apply IH].
Qed.

Lemma append_empty s : s ++ "" = s.
Proof. induction s as [|a s IH]; simpl; [reflexivity|]. rewrite IH. reflexivity. Qed.

Lemma take_at_split pre t :
  take (pre ++ t) (Z.of_nat (String.length pre)) = pre.
Proof.
  unfold take, slice.
  replace (Z.to_nat (_ - 0)) with (String.length pre) by lia.
  apply substring_app_prefix.
Qed.

Lemma drop_at_split pre t :
  drop (pre ++ t) (Z.of_nat (String.length pre)) = t.
Proof.
  pose proof (length_append pre t) as Hl.
  unfold drop, slice. rewrite Nat2Z.id.
  replace (Z.to_nat (_ - _)) with (String.length t) by lia.
  apply substring_app_suffix.
Qed.

(** X15: what [os.path.splitext] hands to [load_data].  The two parts put
    together give the path back, and the extension is either empty or a dot
    followed by characters among which there is no dot and no slash. *)
Theorem splitext_shape p :
  fst (splitext p) ++ snd (splitext p) = p /\
  (snd (splitext p) = "" \/
   exists rest, snd (splitext p) = String "." rest /\
                mem "." rest = false /\ mem "/" rest = false).
Proof.
  unfold splitext. cbv zeta.
  destruct (Z.ltb_spec (rfind "/" p) (rfind "." p)) as [Hlt|Hge];
    [|split; [apply append_empty|left; reflexivity]].
  destruct (scan_result p (rfind "." p) (rfind "/" p + 1)
              (Z.to_nat (rfind "." p - (rfind "/" p + 1)))) as [->| ->];
    [split; [apply append_empty|left; reflexivity]|].
  assert (Hsep : -1 <= rfind "/" p)
    by (unfold rfind; destruct (rfind_from_range "/" p 0); lia).
  destruct (rfind_from_split "." p 0) as (pre & post & Hp & Hd & Hm);
    [lia|unfold rfind in *; lia|].
  unfold rfind in *. rewrite Hd in *. rewrite Hp in *. cbn [fst snd].
  replace (0 + Z.of_nat (String.length pre)) with (Z.of_nat (String.length pre)) in * by lia.
  rewrite take_at_split, drop_at_split.
  split; [reflexivity|]. right. exists post. repeat split; [exact Hm|].
  destruct (mem "/" post) eqn:Hs; [exfalso|reflexivity].
  assert (Hs' : mem "/" (String "." post) = true) by (simpl; exact Hs).
  pose proof (rfind_from_app_present "/" pre (String "." post) 0 ltac:(lia) Hs') as Hb.
  assert (Hb2 : Z.of_nat (String.length (pre ++ String "." "")) <=
                rfind_from "/" ((pre ++ String "." "") ++ post) 0).
  { pose proof (rfind_from_app_present "/" (pre ++ String "." "") post 0
                  ltac:(lia) Hs). lia. }
  rewrite append_assoc in Hb2. cbn [append] in Hb2.
  rewrite length_append in Hb2. cbn [String.length] in Hb2. lia.
Qed.

(** Without a dot after the last slash there is no extension. *)
Lemma splitext_no_dot base :
  mem "." base = false ->
  splitext base = (base, "") /\
  forall dir, splitext (dir ++ String "/" base) = (dir ++ String "/" base, "").
Proof.
  intros Hm. split.
  - unfold splitext, rfind. cbv zeta. rewrite (rfind_from_absent "." base 0 Hm).
    destruct (rfind_from_range "/" base 0);
      destruct (Z.ltb_spec (rfind_from "/" base 0) (-1)); try reflexivity; lia.
  - intros dir. unfold splitext, rfind. cbv zeta.
    rewrite (rfind_from_app_absent "." dir (String "/" base) 0) by (simpl; exact Hm).
    pose proof (rfind_from_app_present "/" dir (String "/" base) 0 ltac:(lia)) as Hs.
    specialize (Hs ltac:(reflexivity)).
    destruct (rfind_from_range "." dir 0);
      destruct (Z.ltb_spec (rfind_from "/" (dir ++ String "/" base) 0)
                           (rfind_from "." dir 0)); try reflexivity; lia.
Qed.

End SplitextShape.

Section NoExtension.

Context {DataFrame : Type}.
Variable env : Env DataFrame.

(** X16: a file without a dot after the last slash of its path has no
    extension for [load_data], whatever dots its directories have: when it is
    on disk, [load_data] raises [ValueError] for the empty extension and
    calls no parser. *)
Theorem load_data_no_extension path base sheet :
  PyStr.mem "." base = false ->
  path = base \/ (exists dir, path = dir ++ String "/" base) ->
  path_exists env path = true ->
  outcome (load_data env path sheet)
  = inl (Exn ValueError ("Unsupported file format: " ++ repr env "")) /\
  count is_parse (events (load_data env path sheet)) = 0%nat.
Proof.
  intros Hm Hp H.
  destruct (SplitextShape.splitext_no_dot base Hm) as [Hb Hd].
  assert (He : snd (splitext path) = "").
  { destruct Hp as [->|[dir ->]]; [rewrite Hb|rewrite Hd]; reflexivity. }
  assert (Hf : format_of_extension (snd (splitext path)) = None)
    by (rewrite He; reflexivity).
  rewrite (load_data_unsupported_eq env path sheet H Hf), He.
  split; reflexivity.
Qed.

End NoExtension.

(** ** [main]: when it returns and what it raises *)

Section MainOutcome.

Context {DataFrame : Type}.
Variable env : Env DataFrame.

(** X17: [main] returns exactly when every step succeeds: the run is
    initialized, [load_data] returns a single frame, the artifact is built,
    its file is opened, [to_csv] serializes the frame, the file is closed
    and added on leaving the block, and [wandb.log_artifact] accepts the
    artifact holding the serialized text. *)
Theorem main_success_iff args :
  outcome (main env args) = inr tt <->
  wandb_init env "data_loader" = None /\
  exists df content,
    outcome (load_data env (file_path args) (sheet_name args)) = inr (VFrame df) /\
    wandb_Artifact env (artifact_name args) (artifact_type args)
                   (artifact_description args) = None /\
    wandb_new_file env "raw_data.csv" "w" = None /\
    to_csv env df false = inr content /\
    wandb_new_file_exit env "raw_data.csv" content = None /\
    wandb_log_artifact env (artifact_of args content) = None.
Proof.
  rewrite main_eq.
  destruct (wandb_init env "data_loader") as [e|].
  { split; [discriminate|]. intros [Hi _]. discriminate. }
  cbv zeta.
  destruct (outcome (load_data env (file_path args) (sheet_name args))) as [e|v].
  { split; [discriminate|]. intros (_ & df & content & Hl & _). discriminate. }
  cbn [outcome snd]. rewrite after_load_eq. cbv zeta.
  destruct (wandb_Artifact env _ _ _) as [e|].
  { split; [discriminate|]. intros (_ & df & content & _ & Ha & _). discriminate. }
  destruct (wandb_new_file env _ _) as [e|].
  { split; [discriminate|]. intros (_ & df & content & _ & _ & Hn & _). discriminate. }
  destruct v as [df|sheets];
    [|split; [discriminate|]; intros (_ & df & content & Hl & _); discriminate].
  destruct (to_csv env df false) as [e|content] eqn:Hc.
  { split; [discriminate|].
    intros (_ & df' & content & [= <-] & _ & _ & Hc' & _).
    rewrite Hc in Hc'. discriminate. }
  destruct (wandb_new_file_exit env "raw_data.csv" content) as [e|] eqn:Hx.
  { split; [discriminate|].
    intros (_ & df' & content' & [= <-] & _ & _ & Hc' & Hx' & _).
    rewrite Hc in Hc'. injection Hc' as <-. rewrite Hx in Hx'. discriminate. }
  destruct (wandb_log_artifact env (artifact_of args content)) as [e|] eqn:Hlog.
  - split; [discriminate|].
    intros (_ & df' & content' & [= <-] & _ & _ & Hc' & _ & Hl).
    rewrite Hc in Hc'. injection Hc' as <-. rewrite Hlog in Hl. discriminate.
  - split; [|reflexivity]. intros _. split; [reflexivity|].
    exists df, content. repeat split; assumption.
Qed.

(** X18: [main] handles no exception and adds none of its own.  Whatever it
    raises was raised by [wandb.init], by [load_data], by the [Artifact]
    constructor, by [new_file], by [to_csv] on the loaded frame, by leaving
    the [new_file] block, by [wandb.log_artifact], or is the
    [AttributeError] of calling [to_csv] on the [dict] that [load_data]
    returned. *)
Theorem main_exception_origin args e :
  outcome (main env args) = inl e ->
  wandb_init env "data_loader" = Some e \/
  outcome (load_data env (file_path args) (sheet_name args)) = inl e \/
  wandb_Artifact env (artifact_name args) (artifact_type args)
                 (artifact_description args) = Some e \/
  wandb_new_file env "raw_data.csv" "w" = Some e \/
  (exists sheets,
      outcome (load_data env (file_path args) (sheet_name args)) = inr (VSheets sheets) /\
      e = Exn AttributeError "'dict' object has no attribute 'to_csv'") \/
  (exists df,
      outcome (load_data env (file_path args) (sheet_name args)) = inr (VFrame df) /\
      (to_csv env df false = inl e \/
       exists content,
         to_csv env df false = inr content /\
         (wandb_new_file_exit env "raw_data.csv" content = Some e \/
          wandb_log_artifact env (artifact_of args content) = Some e))).
Proof.
  rewrite main_eq.
  destruct (wandb_init env "data_loader") as [e0|].
  { intros [= ->]. left. reflexivity. }
  cbv zeta.
  destruct (outcome (load_data env (file_path args) (sheet_name args))) as [e0|v].
  { intros [= ->]. right; left. reflexivity. }
  cbn [outcome snd]. rewrite after_load_eq. cbv zeta.
  destruct (wandb_Artifact env _ _ _) as [e0|].
  { intros [= ->]. do 2 right; left. reflexivity. }
  destruct (wandb_new_file env _ _) as [e0|].
  { intros [= ->]. do 3 right; left. reflexivity. }
  destruct v as [df|sheets];
    [|intros [= <-]; do 4 right; left; exists sheets; split; reflexivity].
  intros He. do 5 right. exists df. split; [reflexivity|].
  destruct (to_csv env df false) as [e0|content] eqn:Hc.
  { injection He as ->. left. reflexivity. }
  right. exists content. split; [reflexivity|].
  destruct (wandb_new_file_exit env "raw_data.csv" content) as [e0|] eqn:Hx.
  { injection He as ->. left. reflexivity. }
  destruct (wandb_log_artifact env (artifact_of args content)) as [e0|] eqn:Hlog;
    [|discriminate].
  injection He as ->. right. reflexivity.
Qed.

End MainOutcome.

(** ** The further properties at work in the small world *)

Lemma load_data_sheet_name_unused_witness :
  snd (splitext "data.csv") <> ".xlsx" /\
  load_data Demo.env "data.csv" (Some "towns") = load_data Demo.env "data.csv" None.
Proof.
  assert (Hx : snd (splitext "data.csv") <> ".xlsx") by (vm_compute; discriminate).
  split; [exact Hx|].
  exact (load_data_sheet_name_unused Demo.env "data.csv" (Some "towns") None Hx).
Defined.

Lemma load_data_sheets_only_for_xlsx_witness :
  outcome (load_data Demo.env "book.xlsx" None)
  = inr (VSheets [("people", Demo.people); ("towns", Demo.towns)]) /\
  snd (splitext "book.xlsx") = ".xlsx".
Proof.
  split; [reflexivity|].
  exact (proj1 (load_data_sheets_only_for_xlsx Demo.env "book.xlsx" None
                  [("people", Demo.people); ("towns", Demo.towns)] eq_refl)).
Defined.

Lemma load_data_single_frame_witness :
  Some "people" <> None /\
  outcome (load_data Demo.env "book.xlsx" (Some "people")) = inr (VFrame Demo.people) /\
  exists df, VFrame Demo.people = VFrame df.
Proof.
  assert (Hs : Some "people" <> @None string) by discriminate.
  split; [exact Hs|]. split; [reflexivity|].
  exact (load_data_single_frame Demo.env "book.xlsx" (Some "people")
           (VFrame Demo.people) (or_introl Hs) eq_refl).
Defined.

Lemma load_data_unsupported_logs_witness :
  path_exists Demo.env "notes.txt" = true /\
  events (load_data Demo.env "notes.txt" None)
  = [EvExists "notes.txt";
     EvLog ERROR "Unsupported file format: .txt";
     EvLog ERROR "An error occurred: Unsupported file format: '.txt'"].
Proof.
  split; [reflexivity|].
  apply (load_data_unsupported_logs Demo.env "notes.txt" None eq_refl).
  vm_compute. intuition discriminate.
Defined.

Lemma load_data_parser_error_log_witness :
  path_exists Demo.env "empty.csv" = true /\
  outcome (read_as Demo.env Csv "empty.csv" None)
  = inl (Exn EmptyDataError "No columns to parse from file") /\
  filter is_error_log (events (load_data Demo.env "empty.csv" None))
  = [EvLog ERROR "No data: empty.csv is empty"].
Proof.
  split; [reflexivity|]. split; [reflexivity|].
  exact (load_data_parser_error_log Demo.env "empty.csv" None Csv
           (Exn EmptyDataError "No columns to parse from file")
           eq_refl eq_refl eq_refl).
Defined.

Lemma load_data_success_log_witness :
  (exists v, outcome (load_data Demo.env "table.json" None) = inr v) /\
  In (EvLog INFO "Successfully loaded data from table.json")
     (events (load_data Demo.env "table.json" None)).
Proof.
  assert (Hv : exists v, outcome (load_data Demo.env "table.json" None) = inr v)
    by (eexists; reflexivity).
  split; [exact Hv|].
  exact (proj2 (load_data_success_log Demo.env "table.json" None) Hv).
Defined.

Lemma main_init_first_witness :
  wandb_init (DemoFaults.with_wandb (Some DemoFaults.comm_error) None) "data_loader"
  = Some DemoFaults.comm_error /\
  main (DemoFaults.with_wandb (Some DemoFaults.comm_error) None)
       (Demo.args "data.csv" None)
  = ([EvInit "data_loader"], inl DemoFaults.comm_error).
Proof.
  split; [reflexivity|].
  exact (proj2 (main_init_first
                  (DemoFaults.with_wandb (Some DemoFaults.comm_error) None)
                  (Demo.args "data.csv" None))
               DemoFaults.comm_error eq_refl).
Defined.

Lemma main_logged_artifact_complete_witness :
  outcome (main (DemoFaults.with_wandb None (Some DemoFaults.comm_error))
                (Demo.args "data.csv" None))
  = inl DemoFaults.comm_error /\
  exists df content,
    outcome (load_data (DemoFaults.with_wandb None (Some DemoFaults.comm_error))
                       "data.csv" None) = inr (VFrame df) /\
    to_csv (DemoFaults.with_wandb None (Some DemoFaults.comm_error)) df false
    = inr content /\
    mkArtifact "raw" (Some "dataset") None
               [("raw_data.csv", Demo.write_csv Demo.people false)]
    = mkArtifact "raw" (Some "dataset") None [("raw_data.csv", content)].
Proof.
  split; [reflexivity|].
  apply (main_logged_artifact_complete
           (DemoFaults.with_wandb None (Some DemoFaults.comm_error))
           (Demo.args "data.csv" None)).
  left. reflexivity.
Defined.

Lemma main_final_log_iff_success_witness :
  outcome (main Demo.env (Demo.args "data.csv" None)) = inr tt /\
  In (EvLog INFO "Data loaded and artifact logged to Weights & Biases")
     (events (main Demo.env (Demo.args "data.csv" None))).
Proof.
  split; [reflexivity|].
  exact (proj2 (main_final_log_iff_success Demo.env (Demo.args "data.csv" None))
               eq_refl).
Defined.

Lemma main_xlsx_no_sheet_name_raises_witness :
  path_exists Demo.env "book.xlsx" = true /\
  snd (splitext "book.xlsx") = ".xlsx" /\
  outcome (main Demo.env (Demo.args "book.xlsx" None))
  = inl (Exn AttributeError "'dict' object has no attribute 'to_csv'") /\
  logged_artifacts (events (main Demo.env (Demo.args "book.xlsx" None))) = [].
Proof.
  split; [reflexivity|]. split; [reflexivity|].
  destruct (main_xlsx_no_sheet_name_raises Demo.env (Demo.args "book.xlsx" None)
              [("people", Demo.people); ("towns", Demo.towns)]
              eq_refl eq_refl eq_refl eq_refl eq_refl eq_refl eq_refl)
    as (Ho & _ & _ & Hl).
  split; [exact Ho|exact Hl].
Defined.

Lemma load_data_no_extension_witness :
  PyStr.mem "." "part-0001" = false /\
  path_exists (DemoFaults.with_disk ["export.csv/part-0001"]) "export.csv/part-0001"
  = true /\
  outcome (load_data (DemoFaults.with_disk ["export.csv/part-0001"])
                     "export.csv/part-0001" None)
  = inl (Exn ValueError "Unsupported file format: ''").
Proof.
  split; [reflexivity|]. split; [reflexivity|].
  refine (proj1 (load_data_no_extension
                   (DemoFaults.with_disk ["export.csv/part-0001"])
                   "export.csv/part-0001" "part-0001" None eq_refl _ eq_refl)).
  right. exists "export.csv". reflexivity.
Defined.

Lemma main_success_iff_witness :
  wandb_init Demo.env "data_loader" = None /\
  outcome (main Demo.env (Demo.args "table.json" None)) = inr tt.
Proof.
  split; [reflexivity|].
  apply (proj2 (main_success_iff Demo.env (Demo.args "table.json" None))).
  split; [reflexivity|].
  exists Demo.towns, (Demo.write_csv Demo.towns false). repeat split.
Defined.

Lemma main_exception_origin_witness :
  outcome (main (DemoFaults.with_wandb None (Some DemoFaults.comm_error))
                (Demo.args "data.csv" None))
  = inl DemoFaults.comm_error /\
  (wandb_init (DemoFaults.with_wandb None (Some DemoFaults.comm_error)) "data_loader"
   = Some DemoFaults.comm_error \/
   outcome (load_data (DemoFaults.with_wandb None (Some DemoFaults.comm_error))
                      "data.csv" None) = inl DemoFaults.comm_error \/
   wandb_Artifact (DemoFaults.with_wandb None (Some DemoFaults.comm_error))
                  "raw" (Some "dataset") None = Some DemoFaults.comm_error \/
   wandb_new_file (DemoFaults.with_wandb None (Some DemoFaults.comm_error))
                  "raw_data.csv" "w" = Some DemoFaults.comm_error \/
   (exists sheets,
       outcome (load_data (DemoFaults.with_wandb None (Some DemoFaults.comm_error))
                          "data.csv" None) = inr (VSheets sheets) /\
       DemoFaults.comm_error
       = Exn AttributeError "'dict' object has no attribute 'to_csv'") \/
   (exists df,
       outcome (load_data (DemoFaults.with_wandb None (Some DemoFaults.comm_error))
                          "data.csv" None) = inr (VFrame df) /\
       (to_csv (DemoFaults.with_wandb None (Some DemoFaults.comm_error)) df false
        = inl DemoFaults.comm_error \/
        exists content,
          to_csv (DemoFaults.with_wandb None (Some DemoFaults.comm_error)) df false
          = inr content /\
          (wandb_new_file_exit (DemoFaults.with_wandb None (Some DemoFaults.comm_error))
                               "raw_data.csv" content = Some DemoFaults.comm_error \/
           wandb_log_artifact (DemoFaults.with_wandb None (Some DemoFaults.comm_error))
                              (artifact_of (Demo.args "data.csv" None) content)
           = Some DemoFaults.comm_error)))).
Proof.
  split; [reflexivity|].
  exact (main_exception_origin
           (DemoFaults.with_wandb None (Some DemoFaults.comm_error))
           (Demo.args "data.csv" None) DemoFaults.comm_error eq_refl).
Defined.
